(** * QoS resource resolution in the CRI server

    A shallow embedding of the QoS-resource code of the CRI server
    ([pkg/cri/server]): the class resolvers of [rdt_linux.go] and
    [blockio_linux.go], the spec-option generators of
    [qos_resources_linux.go], and the variant of the latter that adds the
    CNI ["net"] resource.

    Package-level variables of the Go code live in a [World] that every
    operation threads explicitly, together with the lines it logs.  The
    packages [rdt], [blockio], [encoding/json] and [go-cni] are outside this
    code base; what the server calls in them is gathered in [Env]. *)

From stdpp Require Import base option list strings gmap.

Open Scope string_scope.
Open Scope list_scope.

(** ** Errors and log lines

    One constructor per [fmt.Errorf] site, carrying the arguments of the
    format string; [%w] wrapping is a constructor with an [Error] argument. *)

Inductive Error : Type :=
  | ErrUnknownPodResourceType (name : string)
      (* unknown pod-level QoS resource type %q *)
  | ErrUnknownResourceType (name : string)
      (* unknown QoS resource type %q *)
  | ErrUnknownClass (name class : string)
      (* unknown %s class %q *)
  | ErrEmptyClass (name : string)
      (* empty class name not allowed for QoS resource type %q *)
  | ErrUnknownQuotedClass (name class : string)
      (* unknown %q class %q *)
  | ErrFailedToSetRdt (cause : Error)
      (* failed to set RDT class: %w *)
  | ErrFailedToSetBlockio (cause : Error)
      (* failed to set blockio class: %w *)
  | ErrRdtDisabled (container class : string)
      (* RDT disabled, refusing to set RDT class of container %q to %q *)
  | ErrInvalidRdtClass (class : string)
      (* invalid RDT class %q: not specified in configuration *)
  | ErrBlockioDisabled (container class : string)
      (* blockio disabled, refusing to set blockio class of container %q to %q *)
  | ErrInvalidBlockioClass (class : string)
      (* invalid blockio class %q: not specified in configuration *)
  | ErrNilPlugin
      (* BUG: unable to parse CNI QoS resources, nil plugin was given *)
  | ErrNoNetworks
      (* unable to parse CNI config for QoS resources: no networks configured *)
  | ErrParseCniConfig (cause : Error)
      (* failed to parse CNI config for QoS resources: %w *)
  | ErrExternal (msg : string).
      (* an error value made by one of the outside packages *)

(** A Go result pair [(value, err)] in which [value] is unset when [err] is
    not nil. *)
Inductive Result (A : Type) : Type :=
  | Ok (a : A)
  | Err (e : Error).
Arguments Ok {A} a.
Arguments Err {A} e.

(** ** CRI messages

    The generated getters ([GetQosResources], [GetName], [GetClass],
    [GetMetadata]) are the record projections; the configs handed to the
    server are not nil, and a request is a pair of strings. *)

Record QOSResource : Type := mkQOSResource {
  Name : string;
  Class : string
}.

Record ContainerMetadata : Type := { MetadataName : string }.

Record ContainerConfig : Type := {
  Metadata : ContainerMetadata;
  ContainerQosResources : list QOSResource;
  ContainerAnnotations : gmap string string
}.

Record PodSandboxConfig : Type := {
  PodQosResources : list QOSResource;
  PodAnnotations : gmap string string
}.

Record QOSResourceClassInfo : Type := {
  ClassInfoName : string;
  ClassInfoCapacity : N
}.

Record QOSResourceInfo : Type := {
  InfoName : string;
  InfoMutable : bool;
  InfoClasses : list QOSResourceClassInfo
}.

(** Modelled from the spec: the resource-type names declared by the CRI API
    package ([runtime.QoSResourceRdt], [runtime.QoSResourceBlockio]), which
    is not part of this code base; the spec names the types "rdt" and
    "blockio". *)
Definition QoSResourceRdt : string := "rdt".
Definition QoSResourceBlockio : string := "blockio".

(** [QoSResourceNet] is the name of the CNI QoS resource. *)
Definition QoSResourceNet : string := "net".

(** ** CNI types *)

Record CniBandWidth : Type := {
  IngressRate : N;
  IngressBurst : N;
  EgressRate : N;
  EgressBurst : N
}.

Record CniQoSClass : Type := {
  Capacity : N;
  BandWidth : option CniBandWidth
}.

Record NetworkConfList : Type := { Source : string }.
Record ConfNetwork : Type := { Config : NetworkConfList }.
Record ConfigResult : Type := { Networks : list ConfNetwork }.
Record CNI : Type := { GetConfig : ConfigResult }.

Inductive NamespaceOpts : Type :=
  | WithCapabilityBandWidth (bandWidth : CniBandWidth).

Inductive LogEntry : Type :=
  | LogSettingDummy (name class : string)
  | LogRdtClassFromConfig (class : string) (found : bool) (container : string)
  | LogRdtClassFromAnnotations (class container : string)
  | LogIgnoreRdtNotEnabled (container : string) (err : Error)
  | LogIgnoreBlockioNotEnabled (container : string) (err : Error)
  | LogParsingCniConfig (raw : string)
  | LogFailedToParseCniConfig (raw : string)
  | LogParsedCniConfig (name : string) (qos : gmap string CniQoSClass).

(** ** What the generators emit *)

Inductive SpecOpts {LinuxBlockIO : Type} : Type :=
  | WithRdt (closID l3CacheSchema memBwSchema : string)
  | WithBlockIO (blockIO : LinuxBlockIO).
Arguments SpecOpts : clear implicits.

(** ** The outside packages *)

Record Backend : Type := {
  IsEnabled : bool;
  ClassExists : string → bool;
  ContainerClassFromAnnotations :
    string → gmap string string → gmap string string → string * option Error
}.

Record ContainerdConfig : Type := {
  IgnoreRdtNotEnabledErrors : bool;
  IgnoreBlockIONotEnabledErrors : bool
}.

Record Env {LinuxBlockIO : Type} : Type := {
  rdt : Backend;
  blockio : Backend;
  ClassNameToLinuxOCI : string → Result LinuxBlockIO;
  jsonUnmarshal : string → Result (string * gmap string CniQoSClass);
  containerName : string;
  criConfig : ContainerdConfig
}.
Arguments Env : clear implicits.

(** ** Package state

    A Go map that was never assigned reads like the empty map: [∅] stands
    for both. *)

Record World : Type := {
  cniQoSResource : gmap string CniQoSClass;
  dummyContainerQoSResourcesInfo : list QOSResourceInfo;
  dummyContainerQoSResources : gmap string (gset string);
  dummyPodQoSResourcesInfo : list QOSResourceInfo;
  dummyPodQoSResources : gmap string (gset string);
  logged : list LogEntry
}.

(** A computation reads and updates the package state. *)
Definition M (A : Type) : Type := World → A * World.

Definition ret {A} (a : A) : M A := λ w, (a, w).
Definition bind {A B} (m : M A) (k : A → M B) : M B :=
  λ w, let (a, w') := m w in k a w'.
Definition get : M World := λ w, (w, w).
Definition logf (e : LogEntry) : M unit := λ w,
  (tt, {| cniQoSResource := cniQoSResource w;
          dummyContainerQoSResourcesInfo := dummyContainerQoSResourcesInfo w;
          dummyContainerQoSResources := dummyContainerQoSResources w;
          dummyPodQoSResourcesInfo := dummyPodQoSResourcesInfo w;
          dummyPodQoSResources := dummyPodQoSResources w;
          logged := logged w ++ [e] |}).
Definition setCniQoSResource (qos : gmap string CniQoSClass) : M unit := λ w,
  (tt, {| cniQoSResource := qos;
          dummyContainerQoSResourcesInfo := dummyContainerQoSResourcesInfo w;
          dummyContainerQoSResources := dummyContainerQoSResources w;
          dummyPodQoSResourcesInfo := dummyPodQoSResourcesInfo w;
          dummyPodQoSResources := dummyPodQoSResources w;
          logged := logged w |}).

Declare Scope m_scope.
Delimit Scope m_scope with M.
Notation "x <- c ;; k" := (bind c (λ x, k))
  (at level 100, c at next level, right associativity) : m_scope.
Notation "c ;;; k" := (bind c (λ _, k))
  (at level 100, right associativity) : m_scope.
Open Scope m_scope.

(** ** [rdt_linux.go] and [blockio_linux.go] *)

(** The loop over the structured requests: every request naming [resource]
    sets [found] and overwrites [cls]; the loop has no [break]. *)
Fixpoint classFromConfig (resource : string) (qrs : list QOSResource)
    (found : bool) (cls : string) : bool * string :=
  match qrs with
  | [] => (found, cls)
  | r :: rest =>
      if decide (Name r = resource)
      then classFromConfig resource rest true (Class r)
      else classFromConfig resource rest found cls
  end.

Section Resolvers.
Context {LinuxBlockIO : Type} (env : Env LinuxBlockIO).

(** [getContainerRdtClass] gets the effective RDT class of a container.
    The result is the pair of the named results [(cls, err)]. *)
Definition getContainerRdtClass (config : ContainerConfig)
    (sandboxConfig : PodSandboxConfig) : M (string * option Error) :=
  let containerName := MetadataName (Metadata config) in
  let '(found, cls) :=
    classFromConfig QoSResourceRdt (ContainerQosResources config) false "" in
  logf (LogRdtClassFromConfig cls found containerName) ;;;
  let '(cls, err) :=
    if found then (cls, None)
    else ContainerClassFromAnnotations (rdt env) containerName
           (ContainerAnnotations config) (PodAnnotations sandboxConfig) in
  match err with
  | Some _ => ret (cls, err)
  | None =>
      if decide (cls = "") then ret (cls, None)
      else
        let err :=
          if negb (IsEnabled (rdt env))
          then Some (ErrRdtDisabled containerName cls)
          else if negb (ClassExists (rdt env) cls)
          then Some (ErrInvalidRdtClass cls)
          else None in
        match err with
        | Some _ =>
            logf (LogRdtClassFromAnnotations cls containerName) ;;;
            ret (cls, err)
        | None => ret (cls, err)
        end
  end.

(** [getContainerBlockioClass] gets the effective blockio class of a
    container. *)
Definition getContainerBlockioClass (config : ContainerConfig)
    (sandboxConfig : PodSandboxConfig) : M (string * option Error) :=
  let containerName := MetadataName (Metadata config) in
  let '(found, cls) :=
    classFromConfig QoSResourceBlockio (ContainerQosResources config) false "" in
  let '(cls, err) :=
    if found then (cls, None)
    else ContainerClassFromAnnotations (blockio env) containerName
           (ContainerAnnotations config) (PodAnnotations sandboxConfig) in
  match err with
  | Some _ => ret (cls, err)
  | None =>
      if decide (cls = "") then ret (cls, None)
      else if negb (IsEnabled (blockio env))
      then ret (cls, Some (ErrBlockioDisabled containerName cls))
      else if negb (ClassExists (blockio env) cls)
      then ret (cls, Some (ErrInvalidBlockioClass cls))
      else ret (cls, None)
  end.

End Resolvers.

(** ** [qos_resources_linux.go], with the CNI ["net"] resource *)

(** The body of the request loop of [generateContainerQoSResourceSpecOpts]:
    [Some err] is the early [return nil, err]. *)
Fixpoint containerQoSLoop (qrs : list QOSResource) : M (option Error) :=
  match qrs with
  | [] => ret None
  | r :: rest =>
      let name := Name r in
      let class := Class r in
      sw <- (if decide (name = QoSResourceRdt) then ret None
             else if decide (name = QoSResourceBlockio) then ret None
             else
               w <- get ;;
               match dummyContainerQoSResources w !! name with
               | None => ret (Some (ErrUnknownResourceType name))
               | Some cr =>
                   if decide (class ∈ cr)
                   then logf (LogSettingDummy name class) ;;; ret None
                   else ret (Some (ErrUnknownClass name class))
               end) ;;
      match sw with
      | Some err => ret (Some err)
      | None =>
          if decide (class = "") then ret (Some (ErrEmptyClass name))
          else containerQoSLoop rest
      end
  end.

(** The request loop of [generateSandboxQoSResourceSpecOpts]. *)
Fixpoint sandboxQoSLoop (qrs : list QOSResource) : M (option Error) :=
  match qrs with
  | [] => ret None
  | r :: rest =>
      let name := Name r in
      let class := Class r in
      sw <- (if decide (name = QoSResourceNet) then ret None
             else
               w <- get ;;
               match dummyPodQoSResources w !! name with
               | None => ret (Some (ErrUnknownPodResourceType name))
               | Some cr =>
                   if decide (class ∈ cr)
                   then logf (LogSettingDummy name class) ;;; ret None
                   else ret (Some (ErrUnknownClass name class))
               end) ;;
      match sw with
      | Some err => ret (Some err)
      | None =>
          if decide (class = "") then ret (Some (ErrEmptyClass name))
          else sandboxQoSLoop rest
      end
  end.

(** The loop of [generateCniQoSResourceOpts]; it ends at the first request
    naming ["net"] ([break]). *)
Fixpoint cniQoSLoop (qrs : list QOSResource) (nsOpts : list NamespaceOpts)
    : M (Result (list NamespaceOpts)) :=
  match qrs with
  | [] => ret (Ok nsOpts)
  | r :: rest =>
      if decide (Name r = QoSResourceNet) then
        let class := Class r in
        w <- get ;;
        match cniQoSResource w !! class with
        | None => ret (Err (ErrUnknownQuotedClass QoSResourceNet class))
        | Some caps =>
            match BandWidth caps with
            | Some bandWidth => ret (Ok (nsOpts ++ [WithCapabilityBandWidth bandWidth]))
            | None => ret (Ok nsOpts)
            end
        end
      else cniQoSLoop rest nsOpts
  end.

Definition generateCniQoSResourceOpts (config : PodSandboxConfig)
    : M (Result (list NamespaceOpts)) :=
  cniQoSLoop (PodQosResources config) [].

Section Generators.
Context {LinuxBlockIO : Type} (env : Env LinuxBlockIO).

(** [generateSandboxQoSResourceSpecOpts] generates SpecOpts for QoS
    resources. *)
Definition generateSandboxQoSResourceSpecOpts (config : PodSandboxConfig)
    : M (Result (list (SpecOpts LinuxBlockIO))) :=
  let specOpts := [] in
  e <- sandboxQoSLoop (PodQosResources config) ;;
  match e with
  | Some err => ret (Err err)
  | None => ret (Ok specOpts)
  end.

(** The "Handle RDT" step of [generateContainerQoSResourceSpecOpts]. *)
Definition handleRdt (config : ContainerConfig)
    (sandboxConfig : PodSandboxConfig)
    (specOpts : list (SpecOpts LinuxBlockIO))
    : M (Result (list (SpecOpts LinuxBlockIO))) :=
  res <- getContainerRdtClass env config sandboxConfig ;;
  let '(cls, err) := res in
  match err with
  | Some err =>
      if negb (IsEnabled (rdt env))
         && IgnoreRdtNotEnabledErrors (criConfig env)
      then logf (LogIgnoreRdtNotEnabled (containerName env) err) ;;;
           ret (Ok specOpts)
      else ret (Err (ErrFailedToSetRdt err))
  | None =>
      if decide (cls = "") then ret (Ok specOpts)
      else ret (Ok (specOpts ++ [WithRdt cls "" ""]))
  end.

(** The "Handle Block IO" step. *)
Definition handleBlockio (config : ContainerConfig)
    (sandboxConfig : PodSandboxConfig)
    (specOpts : list (SpecOpts LinuxBlockIO))
    : M (Result (list (SpecOpts LinuxBlockIO))) :=
  res <- getContainerBlockioClass env config sandboxConfig ;;
  let '(cls, err) := res in
  match err with
  | Some err =>
      if negb (IsEnabled (blockio env))
         && IgnoreBlockIONotEnabledErrors (criConfig env)
      then logf (LogIgnoreBlockioNotEnabled (containerName env) err) ;;;
           ret (Ok specOpts)
      else ret (Err (ErrFailedToSetBlockio err))
  | None =>
      if decide (cls = "") then ret (Ok specOpts)
      else
        match ClassNameToLinuxOCI env cls with
        | Ok linuxBlockIO => ret (Ok (specOpts ++ [WithBlockIO linuxBlockIO]))
        | Err err => ret (Err err)
        end
  end.

(** [generateContainerQoSResourceSpecOpts] generates SpecOpts for QoS
    resources. *)
Definition generateContainerQoSResourceSpecOpts (config : ContainerConfig)
    (sandboxConfig : PodSandboxConfig)
    : M (Result (list (SpecOpts LinuxBlockIO))) :=
  let specOpts := [] in
  e <- containerQoSLoop (ContainerQosResources config) ;;
  match e with
  | Some err => ret (Err err)
  | None =>
      r <- handleRdt config sandboxConfig specOpts ;;
      match r with
      | Err err => ret (Err err)
      | Ok specOpts => handleBlockio config sandboxConfig specOpts
      end
  end.

(** [getCniQoSResources] reads the class table from the second configured
    network. *)
Definition getCniQoSResources (netplugin : option CNI)
    : M (Result (gmap string CniQoSClass)) :=
  match netplugin with
  | None => ret (Err ErrNilPlugin)
  | Some netplugin =>
      let cniConfig := GetConfig netplugin in
      if bool_decide (length (Networks cniConfig) < 2)
      then ret (Err ErrNoNetworks)
      else
        match Networks cniConfig !! 1%nat with
        | None => ret (Err ErrNoNetworks) (* excluded by the length test *)
        | Some network =>
            let rawConf := Source (Config network) in
            logf (LogParsingCniConfig rawConf) ;;;
            match jsonUnmarshal env rawConf with
            | Err err =>
                logf (LogFailedToParseCniConfig rawConf) ;;;
                ret (Err (ErrParseCniConfig err))
            | Ok (name, qos) =>
                logf (LogParsedCniConfig name qos) ;;;
                ret (Ok qos)
            end
        end
  end.

Definition updateCniQoSResources (netplugin : option CNI)
    : M (option Error) :=
  r <- getCniQoSResources netplugin ;;
  match r with
  | Err err => ret (Some err)
  | Ok qos => setCniQoSResource qos ;;; ret None
  end.

End Generators.

(** ** [qos_resources_linux.go] as it is without the CNI resource

    The container-level generator is the same text in both files; the
    pod-level loop has only the [default] case.  The older text of the file,
    from before the placeholder resources, answers every type of the
    [default] case with the unknown-type error: it is this code in a world
    whose placeholder catalogs are empty. *)
Module NoNet.

Fixpoint sandboxQoSLoop (qrs : list QOSResource) : M (option Error) :=
  match qrs with
  | [] => ret None
  | r :: rest =>
      let name := Name r in
      let class := Class r in
      sw <- (w <- get ;;
             match dummyPodQoSResources w !! name with
             | None => ret (Some (ErrUnknownPodResourceType name))
             | Some cr =>
                 if decide (class ∈ cr)
                 then logf (LogSettingDummy name class) ;;; ret None
                 else ret (Some (ErrUnknownClass name class))
             end) ;;
      match sw with
      | Some err => ret (Some err)
      | None =>
          if decide (class = "") then ret (Some (ErrEmptyClass name))
          else sandboxQoSLoop rest
      end
  end.

Definition generateSandboxQoSResourceSpecOpts {LinuxBlockIO : Type}
    (config : PodSandboxConfig)
    : M (Result (list (SpecOpts LinuxBlockIO))) :=
  let specOpts := [] in
  e <- sandboxQoSLoop (PodQosResources config) ;;
  match e with
  | Some err => ret (Err err)
  | None => ret (Ok specOpts)
  end.

End NoNet.

(** ** [init]: the placeholder resources *)

Definition createClassInfos (names : list string) : list QOSResourceClassInfo :=
  imap (λ i name, {| ClassInfoName := name; ClassInfoCapacity := N.of_nat i |})
       names.

Definition dummuGen (infos : list QOSResourceInfo) : gmap string (gset string) :=
  foldl (λ out info,
           <[InfoName info :=
               foldl (λ classes c, {[ClassInfoName c]} ∪ classes) ∅
                     (InfoClasses info)]> out)
        ∅ infos.

Definition init : World :=
  let podInfo :=
    [ {| InfoName := "podres-1"; InfoMutable := false;
         InfoClasses := createClassInfos ["qos-a"; "qos-b"; "qos-c"; "qos-d"] |};
      {| InfoName := "podres-2"; InfoMutable := false;
         InfoClasses :=
           createClassInfos ["cls-1"; "cls-2"; "cls-3"; "cls-4"; "cls-5"] |} ] in
  let containerInfo :=
    [ {| InfoName := "dummy-1"; InfoMutable := false;
         InfoClasses :=
           createClassInfos ["class-a"; "class-b"; "class-c"; "class-d"] |};
      {| InfoName := "dummy-2"; InfoMutable := false;
         InfoClasses :=
           createClassInfos ["platinum"; "gold"; "silver"; "bronze"] |} ] in
  {| cniQoSResource := ∅;
     dummyContainerQoSResourcesInfo := containerInfo;
     dummyContainerQoSResources := dummuGen containerInfo;
     dummyPodQoSResourcesInfo := podInfo;
     dummyPodQoSResources := dummuGen podInfo;
     logged := [] |}.

(** ** The policy-agent round-trip *)

(** Modelled from the spec: the network negotiation protocol (draft, propose,
    merge and re-validate).  The code that sends [AdjustPodSandboxNetwork]
    to the policy agent is not among these sources; the README only names
    the message and the four parts it carries. *)
Module Negotiation.

Record PortMapping : Type := { HostPort : N; ContainerPort : N }.

(** The bandwidth setting of a draft is derived from the resolved ["net"]
    class, which it keeps by name. *)
Record BandwidthSetting : Type := {
  BandwidthClass : string;
  BandwidthLimit : string
}.

Record DNSConfig : Type := {
  Servers : list string;
  Searches : list string;
  Options : list string
}.

Record NetworkDraftConfig : Type := {
  portMappings : list PortMapping;
  bandwidth : BandwidthSetting;
  labels : gmap string string;
  dns : DNSConfig
}.

(** The reply: [None] marks a part the agent did not touch. *)
Record AdjustedConfig : Type := {
  adjustedPortMappings : option (list PortMapping);
  adjustedBandwidth : option BandwidthSetting;
  adjustedLabels : option (gmap string string);
  adjustedDns : option DNSConfig
}.

Inductive NegotiationError : Type :=
  | NegotiationRejected (class : string)
  | AgentCallError (reason : string).

(** What to do when the agent cannot be reached or answers garbage. *)
Inductive FailurePolicy : Type := ProceedWithDraft | Abort.

Inductive State : Type :=
  | Drafting (draft : NetworkDraftConfig)
  | Negotiated (outcome : NetworkDraftConfig + NegotiationError).

(** Every part the agent changed overwrites the draft's. *)
Definition merge (draft : NetworkDraftConfig) (reply : AdjustedConfig)
    : NetworkDraftConfig :=
  {| portMappings := default (portMappings draft) (adjustedPortMappings reply);
     bandwidth := default (bandwidth draft) (adjustedBandwidth reply);
     labels := default (labels draft) (adjustedLabels reply);
     dns := default (dns draft) (adjustedDns reply) |}.

(** A bandwidth setting changed by the agent is looked up in the net class
    catalog exactly as a ["net"] request is. *)
Definition revalidate (catalog : gmap string CniQoSClass)
    (reply : AdjustedConfig) : option NegotiationError :=
  match adjustedBandwidth reply with
  | None => None
  | Some setting =>
      match catalog !! BandwidthClass setting with
      | Some _ => None
      | None => Some (NegotiationRejected (BandwidthClass setting))
      end
  end.

(** One round-trip; there are no retries. *)
Definition negotiate (catalog : gmap string CniQoSClass)
    (policy : FailurePolicy)
    (adjust : NetworkDraftConfig → AdjustedConfig + string)
    (st : State) : State :=
  match st with
  | Negotiated _ => st
  | Drafting draft =>
      match adjust draft with
      | inr reason =>
          match policy with
          | ProceedWithDraft => Negotiated (inl draft)
          | Abort => Negotiated (inr (AgentCallError reason))
          end
      | inl reply =>
          match revalidate catalog reply with
          | Some err => Negotiated (inr err)
          | None => Negotiated (inl (merge draft reply))
          end
      end
  end.

End Negotiation.

(** ** Vocabulary of the statements *)

(** The class a config requests for [resource]: that of the last request
    naming it. *)
Definition requestedClass (resource : string) (qrs : list QOSResource)
    : option string :=
  Class <$> last (filter (λ r, Name r = resource) qrs).

(** The class in effect for a backend, before its support checks: the
    requested one, else what the annotations give. *)
Definition effectiveClass (b : Backend) (resource : string)
    (config : ContainerConfig) (sandboxConfig : PodSandboxConfig)
    : string * option Error :=
  match requestedClass resource (ContainerQosResources config) with
  | Some cls => (cls, None)
  | None =>
      ContainerClassFromAnnotations b (MetadataName (Metadata config))
        (ContainerAnnotations config) (PodAnnotations sandboxConfig)
  end.

(** The resource type a spec option acts on. *)
Definition optResource {LinuxBlockIO : Type} (o : SpecOpts LinuxBlockIO)
    : string :=
  match o with
  | WithRdt _ _ _ => QoSResourceRdt
  | WithBlockIO _ => QoSResourceBlockio
  end.

(** The error a request with an empty class ends the request loop with:
    [handled] says that the type has a case of its own in the [switch];
    the other types go through the placeholder [catalog] first. *)
Definition emptyClassOutcome (handled : Prop) `{!Decision handled}
    (catalog : gmap string (gset string)) (unknownType : string → Error)
    (name : string) : Error :=
  if decide handled then ErrEmptyClass name
  else match catalog !! name with
       | None => unknownType name
       | Some cr =>
           if decide ("" ∈ cr) then ErrEmptyClass name
           else ErrUnknownClass name ""
       end.

(** The package variables of a world, without its log. *)
Definition globals (w : World) :=
  (cniQoSResource w, dummyContainerQoSResourcesInfo w,
   dummyContainerQoSResources w, dummyPodQoSResourcesInfo w,
   dummyPodQoSResources w).

(** ** A concrete environment

    Used to run the definitions: the backends take the class from the
    annotation [key] (the container's before the pod's), know the classes
    listed, and the block-I/O parameters of a class are its name. *)

Definition exampleClassFromAnnotations (key : string) (containerName : string)
    (containerAnnotations podAnnotations : gmap string string)
    : string * option Error :=
  match containerAnnotations !! key with
  | Some cls => (cls, None)
  | None =>
      match podAnnotations !! key with
      | Some cls => (cls, None)
      | None => ("", None)
      end
  end.

Definition exampleBackend (key : string) (enabled : bool)
    (classes : list string) : Backend :=
  {| IsEnabled := enabled;
     ClassExists := λ cls, bool_decide (cls ∈ classes);
     ContainerClassFromAnnotations := exampleClassFromAnnotations key |}.

Definition exampleQos : gmap string CniQoSClass :=
  {[ "fast" := {| Capacity := 2;
                  BandWidth := Some {| IngressRate := 1000; IngressBurst := 100;
                                         EgressRate := 1000; EgressBurst := 100 |} |};
     "counted" := {| Capacity := 5; BandWidth := None |} ]}.

Definition exampleUnmarshal (raw : string)
    : Result (string * gmap string CniQoSClass) :=
  if decide (raw = "qos-conf") then Ok ("qos", exampleQos)
  else Err (ErrExternal "invalid character").

Definition exampleEnv (rdtEnabled blockioEnabled ignoreRdt ignoreBlockio : bool)
    : Env string :=
  {| rdt := exampleBackend "rdt-class" rdtEnabled ["gold"; "silver"];
     blockio := exampleBackend "blockio-class" blockioEnabled ["fast"; "slow"];
     ClassNameToLinuxOCI := λ cls, Ok cls;
     jsonUnmarshal := exampleUnmarshal;
     containerName := "containerd";
     criConfig := {| IgnoreRdtNotEnabledErrors := ignoreRdt;
                     IgnoreBlockIONotEnabledErrors := ignoreBlockio |} |}.

Definition exampleContainer (qrs : list QOSResource)
    (annotations : gmap string string) : ContainerConfig :=
  {| Metadata := {| MetadataName := "app" |};
     ContainerQosResources := qrs;
     ContainerAnnotations := annotations |}.

Definition exampleSandbox (qrs : list QOSResource)
    (annotations : gmap string string) : PodSandboxConfig :=
  {| PodQosResources := qrs; PodAnnotations := annotations |}.

(** A network plugin whose configured networks have the given texts. *)
Definition examplePlugin (sources : list string) : CNI :=
  {| GetConfig :=
       {| Networks := (λ source, {| Config := {| Source := source |} |})
                        <$> sources |} |}.

(** The draft of the spec's negotiation example and a reply that lowers the
    bandwidth of the same class. *)
Definition exampleDraft : Negotiation.NetworkDraftConfig :=
  {| Negotiation.portMappings :=
       [ {| Negotiation.HostPort := 80; Negotiation.ContainerPort := 8080 |} ];
     Negotiation.bandwidth :=
       {| Negotiation.BandwidthClass := "fast";
          Negotiation.BandwidthLimit := "10Mbps" |};
     Negotiation.labels := {[ "tier" := "a" ]};
     Negotiation.dns :=
       {| Negotiation.Servers := []; Negotiation.Searches := [];
          Negotiation.Options := [] |} |}.

Definition exampleReply (class limit : string) : Negotiation.AdjustedConfig :=
  {| Negotiation.adjustedPortMappings := None;
     Negotiation.adjustedBandwidth :=
       Some {| Negotiation.BandwidthClass := class;
               Negotiation.BandwidthLimit := limit |};
     Negotiation.adjustedLabels := None;
     Negotiation.adjustedDns := None |}.

(** ** The advertised resources *)

(** [GetContainerQoSResourcesInfo] returns information about all
    container-level QoS resources.  [rdtClasses] and [blockioClasses] are
    what [rdt.GetClasses()] and [blockio.GetClasses()] answer. *)
Definition GetContainerQoSResourcesInfo (rdtClasses blockioClasses : list string)
    : M (list QOSResourceInfo) :=
  let info : list QOSResourceInfo := [] in
  let info :=
    if bool_decide (0 < length rdtClasses)
    then info ++ [ {| InfoName := QoSResourceRdt; InfoMutable := false;
                      InfoClasses := createClassInfos rdtClasses |} ]
    else info in
  let info :=
    if bool_decide (0 < length blockioClasses)
    then info ++ [ {| InfoName := QoSResourceBlockio; InfoMutable := false;
                      InfoClasses := createClassInfos blockioClasses |} ]
    else info in
  w <- get ;;
  ret (info ++ dummyContainerQoSResourcesInfo w).

(** [GetPodQoSResourcesInfo] returns information about all pod-level QoS
    resources.  The classes of ["net"] are collected by a [range] over the
    map [cniQoSResource], whose order Go leaves open: [entries] is the order
    in which one call happens to visit the map. *)
Definition podQoSResourcesInfo (entries : list (string * CniQoSClass))
    : M (list QOSResourceInfo) :=
  w <- get ;;
  let info : list QOSResourceInfo := [] in
  let info :=
    if bool_decide (0 < size (cniQoSResource w))
    then
      let classes :=
        (λ nc, {| ClassInfoName := fst nc;
                  ClassInfoCapacity := Capacity (snd nc) |}) <$> entries in
      info ++ [ {| InfoName := QoSResourceNet; InfoMutable := false;
                   InfoClasses := classes |} ]
    else info in
  ret (info ++ dummyPodQoSResourcesInfo w).

(** One call visits every entry of the map once. *)
Definition GetPodQoSResourcesInfo_returns (w : World)
    (info : list QOSResourceInfo) : Prop :=
  ∃ entries, entries ≡ₚ map_to_list (cniQoSResource w)
             ∧ info = fst (podQoSResourcesInfo entries w).

(** A run of it, visiting the map in the order of [map_to_list]. *)
Definition GetPodQoSResourcesInfo : M (list QOSResourceInfo) :=
  λ w, podQoSResourcesInfo (map_to_list (cniQoSResource w)) w.

(** ** The generators before the placeholder resources

    The older text of [qos_resources_linux.go]: every type its [switch]
    does not name is an error.  The two steps after the request loop are
    the same text as above. *)
Module Upstream.

Fixpoint sandboxQoSLoop (qrs : list QOSResource) : M (option Error) :=
  match qrs with
  | [] => ret None
  | r :: rest =>
      let name := Name r in
      sw <- ret (Some (ErrUnknownPodResourceType name)) ;;
      match sw with
      | Some err => ret (Some err)
      | None =>
          if decide (Class r = "") then ret (Some (ErrEmptyClass name))
          else sandboxQoSLoop rest
      end
  end.

Definition generateSandboxQoSResourceSpecOpts {LinuxBlockIO : Type}
    (config : PodSandboxConfig)
    : M (Result (list (SpecOpts LinuxBlockIO))) :=
  let specOpts := [] in
  e <- sandboxQoSLoop (PodQosResources config) ;;
  match e with
  | Some err => ret (Err err)
  | None => ret (Ok specOpts)
  end.

Fixpoint containerQoSLoop (qrs : list QOSResource) : M (option Error) :=
  match qrs with
  | [] => ret None
  | r :: rest =>
      let name := Name r in
      sw <- (if decide (name = QoSResourceRdt) then ret None
             else if decide (name = QoSResourceBlockio) then ret None
             else ret (Some (ErrUnknownResourceType name))) ;;
      match sw with
      | Some err => ret (Some err)
      | None =>
          if decide (Class r = "") then ret (Some (ErrEmptyClass name))
          else containerQoSLoop rest
      end
  end.

Definition generateContainerQoSResourceSpecOpts {LinuxBlockIO : Type}
    (env : Env LinuxBlockIO) (config : ContainerConfig)
    (sandboxConfig : PodSandboxConfig)
    : M (Result (list (SpecOpts LinuxBlockIO))) :=
  let specOpts := [] in
  e <- containerQoSLoop (ContainerQosResources config) ;;
  match e with
  | Some err => ret (Err err)
  | None =>
      r <- handleRdt env config sandboxConfig specOpts ;;
      match r with
      | Err err => ret (Err err)
      | Ok specOpts => handleBlockio env config sandboxConfig specOpts
      end
  end.

End Upstream.

(** ** Vocabulary of the further statements *)

(** The requests the container-level loop lets through. *)
Definition acceptedByContainerLoop (w : World) (r : QOSResource) : Prop :=
  Class r ≠ ""
  ∧ (Name r = QoSResourceRdt ∨ Name r = QoSResourceBlockio
     ∨ ∃ cr, dummyContainerQoSResources w !! Name r = Some cr ∧ Class r ∈ cr).

(** The requests the pod-level loop lets through. *)
Definition acceptedBySandboxLoop (w : World) (r : QOSResource) : Prop :=
  Class r ≠ ""
  ∧ (Name r = QoSResourceNet
     ∨ ∃ cr, dummyPodQoSResources w !! Name r = Some cr ∧ Class r ∈ cr).

(** The line the container-level loop logs for a request it lets through. *)
Definition dummyLogOf (r : QOSResource) : list LogEntry :=
  if decide (Name r = QoSResourceRdt ∨ Name r = QoSResourceBlockio) then []
  else [LogSettingDummy (Name r) (Class r)].

(** An info list advertises [class] for the type [name]. *)
Definition advertises (infos : list QOSResourceInfo) (name class : string)
    : Prop :=
  ∃ info classInfo,
    info ∈ infos ∧ InfoName info = name
    ∧ classInfo ∈ InfoClasses info ∧ ClassInfoName classInfo = class.

(** The set of class names of an info, as [dummuGen] collects it. *)
Definition classNames (info : QOSResourceInfo) : gset string :=
  list_to_set (ClassInfoName <$> InfoClasses info).

(** A computation that changes no package variable and only adds to the
    log. *)
Definition conservative {A} (m : M A) : Prop :=
  ∀ w, globals (snd (m w)) = globals w
       ∧ logged w `prefix_of` logged (snd (m w)).

(** The package state before [init] has run, with nothing logged. *)
Definition emptyWorld : World :=
  {| cniQoSResource := ∅;
     dummyContainerQoSResourcesInfo := [];
     dummyContainerQoSResources := ∅;
     dummyPodQoSResourcesInfo := [];
     dummyPodQoSResources := ∅;
     logged := [] |}.

(** * Properties *)

Ltac run := unfold bind, ret, logf, get, setCniQoSResource; cbn.

(** ** The request loop of the resolvers *)

Lemma classFromConfig_last resource qrs found cls :
  classFromConfig resource qrs found cls =
    match last (filter (λ r, Name r = resource) qrs) with
    | Some r => (true, Class r)
    | None => (found, cls)
    end.
Proof.
  revert found cls. induction qrs as [|r rest IH]; intros found cls; [done|].
  cbn [classFromConfig]. rewrite filter_cons.
  destruct (decide (Name r = resource)) as [Hr|Hr].
  - rewrite IH, last_cons. by destruct (last _).
  - apply IH.
Qed.

Lemma classFromConfig_requested resource qrs :
  classFromConfig resource qrs false "" =
    match requestedClass resource qrs with
    | Some cls => (true, cls)
    | None => (false, "")
    end.
Proof.
  rewrite classFromConfig_last. unfold requestedClass.
  by destruct (last _).
Qed.

Lemma requestedClass_app_last resource pre r post :
  Name r = resource →
  (∀ r', r' ∈ post → Name r' ≠ resource) →
  requestedClass resource (pre ++ r :: post) = Some (Class r).
Proof.
  intros Hr Hpost. unfold requestedClass.
  rewrite filter_app, filter_cons, decide_True by done.
  assert (filter (λ r0, Name r0 = resource) post = []) as ->.
  { induction post as [|p post IH]; [done|].
    rewrite filter_cons, decide_False.
    - apply IH. intros r' Hin. apply Hpost. by right.
    - apply Hpost. by left. }
  by rewrite last_snoc.
Qed.

Lemma requestedClass_None resource qrs :
  requestedClass resource qrs = None ↔ ∀ r, r ∈ qrs → Name r ≠ resource.
Proof.
  unfold requestedClass. rewrite fmap_None, last_None. split.
  - intros Hnil r Hin Hr.
    assert (r ∈ filter (λ r0, Name r0 = resource) qrs) as Hf
      by (apply list_elem_of_filter; done).
    rewrite Hnil in Hf. by apply elem_of_nil in Hf.
  - intros Hall. induction qrs as [|q qrs IH]; [done|].
    rewrite filter_cons, decide_False.
    + apply IH. intros r Hin. apply Hall. by right.
    + apply Hall. by left.
Qed.

(** ** What the resolvers return, whatever the log holds *)

Lemma getContainerRdtClass_fst {L} (env : Env L) cfg sb w :
  fst (getContainerRdtClass env cfg sb w) =
    match effectiveClass (rdt env) QoSResourceRdt cfg sb with
    | (cls, Some err) => (cls, Some err)
    | (cls, None) =>
        if decide (cls = "") then (cls, None)
        else if negb (IsEnabled (rdt env))
        then (cls, Some (ErrRdtDisabled (MetadataName (Metadata cfg)) cls))
        else if negb (ClassExists (rdt env) cls)
        then (cls, Some (ErrInvalidRdtClass cls))
        else (cls, None)
    end.
Proof.
  unfold getContainerRdtClass, effectiveClass.
  rewrite classFromConfig_requested.
  destruct (requestedClass _ _) as [cls|]; run.
  - destruct (decide (cls = "")); [done|].
    by destruct (IsEnabled _), (ClassExists _ _).
  - destruct (ContainerClassFromAnnotations _ _ _ _) as [cls [err|]]; [done|].
    destruct (decide (cls = "")); [done|].
    by destruct (IsEnabled _), (ClassExists _ _).
Qed.

Lemma getContainerBlockioClass_fst {L} (env : Env L) cfg sb w :
  fst (getContainerBlockioClass env cfg sb w) =
    match effectiveClass (blockio env) QoSResourceBlockio cfg sb with
    | (cls, Some err) => (cls, Some err)
    | (cls, None) =>
        if decide (cls = "") then (cls, None)
        else if negb (IsEnabled (blockio env))
        then (cls, Some (ErrBlockioDisabled (MetadataName (Metadata cfg)) cls))
        else if negb (ClassExists (blockio env) cls)
        then (cls, Some (ErrInvalidBlockioClass cls))
        else (cls, None)
    end.
Proof.
  unfold getContainerBlockioClass, effectiveClass.
  rewrite classFromConfig_requested.
  destruct (requestedClass _ _) as [cls|]; run.
  - destruct (decide (cls = "")); [done|].
    by destruct (IsEnabled _), (ClassExists _ _).
  - destruct (ContainerClassFromAnnotations _ _ _ _) as [cls [err|]]; [done|].
    destruct (decide (cls = "")); [done|].
    by destruct (IsEnabled _), (ClassExists _ _).
Qed.

Lemma effectiveClass_fst (b : Backend) resource cfg sb :
  fst (effectiveClass b resource cfg sb) =
    match last (filter (λ r, Name r = resource) (ContainerQosResources cfg)) with
    | Some r => Class r
    | None =>
        fst (ContainerClassFromAnnotations b (MetadataName (Metadata cfg))
               (ContainerAnnotations cfg) (PodAnnotations sb))
    end.
Proof. unfold effectiveClass, requestedClass. by destruct (last _). Qed.

Lemma effectiveClass_other (b b' : Backend) resource cfg cfg' sb sb' :
  ContainerQosResources cfg' = ContainerQosResources cfg →
  is_Some (last (filter (λ r, Name r = resource) (ContainerQosResources cfg))) →
  effectiveClass b' resource cfg' sb' = effectiveClass b resource cfg sb.
Proof.
  intros Hqrs [r Hr]. unfold effectiveClass, requestedClass.
  by rewrite Hqrs, Hr.
Qed.

(** C1. The annotation fallback is read only when no structured request
    names the resource type.  The class resolved for RDT (likewise
    block-I/O) is that of the request when one names the type, and the class
    the fallback gives otherwise; and when a request names the type, the
    whole result of the resolver is the same for any annotations on the
    container and the pod and any fallback function of the backend. *)
Theorem C1_annotations_only_without_request {L} (env : Env L)
    (cfg : ContainerConfig) (sb : PodSandboxConfig) (w : World) :
  fst (fst (getContainerRdtClass env cfg sb w)) =
    match last (filter (λ r, Name r = QoSResourceRdt)
                       (ContainerQosResources cfg)) with
    | Some r => Class r
    | None =>
        fst (ContainerClassFromAnnotations (rdt env)
               (MetadataName (Metadata cfg))
               (ContainerAnnotations cfg) (PodAnnotations sb))
    end
  ∧
  fst (fst (getContainerBlockioClass env cfg sb w)) =
    match last (filter (λ r, Name r = QoSResourceBlockio)
                       (ContainerQosResources cfg)) with
    | Some r => Class r
    | None =>
        fst (ContainerClassFromAnnotations (blockio env)
               (MetadataName (Metadata cfg))
               (ContainerAnnotations cfg) (PodAnnotations sb))
    end
  ∧
  (∀ (env' : Env L) cfg' sb' w',
     ContainerQosResources cfg' = ContainerQosResources cfg →
     Metadata cfg' = Metadata cfg →
     IsEnabled (rdt env') = IsEnabled (rdt env) →
     (∀ cls, ClassExists (rdt env') cls = ClassExists (rdt env) cls) →
     is_Some (last (filter (λ r, Name r = QoSResourceRdt)
                           (ContainerQosResources cfg))) →
     fst (getContainerRdtClass env' cfg' sb' w') =
     fst (getContainerRdtClass env cfg sb w))
  ∧
  (∀ (env' : Env L) cfg' sb' w',
     ContainerQosResources cfg' = ContainerQosResources cfg →
     Metadata cfg' = Metadata cfg →
     IsEnabled (blockio env') = IsEnabled (blockio env) →
     (∀ cls, ClassExists (blockio env') cls = ClassExists (blockio env) cls) →
     is_Some (last (filter (λ r, Name r = QoSResourceBlockio)
                           (ContainerQosResources cfg))) →
     fst (getContainerBlockioClass env' cfg' sb' w') =
     fst (getContainerBlockioClass env cfg sb w)).
Proof.
  split; [|split; [|split]].
  - rewrite getContainerRdtClass_fst, <-effectiveClass_fst.
    destruct (effectiveClass _ _ _ _) as [cls [err|]]; [done|]; cbn.
    destruct (decide (cls = "")); [done|].
    by destruct (IsEnabled _), (ClassExists _ _).
  - rewrite getContainerBlockioClass_fst, <-effectiveClass_fst.
    destruct (effectiveClass _ _ _ _) as [cls [err|]]; [done|]; cbn.
    destruct (decide (cls = "")); [done|].
    by destruct (IsEnabled _), (ClassExists _ _).
  - intros env' cfg' sb' w' Hqrs Hmeta Hen Hex Hreq.
    rewrite !getContainerRdtClass_fst.
    rewrite (effectiveClass_other (rdt env) (rdt env') _ cfg cfg' sb sb') by done.
    destruct (effectiveClass _ _ _ _) as [cls [err|]]; [done|].
    by rewrite Hmeta, Hen, Hex.
  - intros env' cfg' sb' w' Hqrs Hmeta Hen Hex Hreq.
    rewrite !getContainerBlockioClass_fst.
    rewrite (effectiveClass_other (blockio env) (blockio env') _ cfg cfg' sb sb')
      by done.
    destruct (effectiveClass _ _ _ _) as [cls [err|]]; [done|].
    by rewrite Hmeta, Hen, Hex.
Qed.

Lemma getContainerRdtClass_class {L} (env : Env L) cfg sb w :
  fst (fst (getContainerRdtClass env cfg sb w)) =
  fst (effectiveClass (rdt env) QoSResourceRdt cfg sb).
Proof.
  rewrite getContainerRdtClass_fst.
  destruct (effectiveClass _ _ _ _) as [cls [err|]]; [done|]; cbn.
  destruct (decide (cls = "")); [done|].
  by destruct (IsEnabled _), (ClassExists _ _).
Qed.

Lemma getContainerBlockioClass_class {L} (env : Env L) cfg sb w :
  fst (fst (getContainerBlockioClass env cfg sb w)) =
  fst (effectiveClass (blockio env) QoSResourceBlockio cfg sb).
Proof.
  rewrite getContainerBlockioClass_fst.
  destruct (effectiveClass _ _ _ _) as [cls [err|]]; [done|]; cbn.
  destruct (decide (cls = "")); [done|].
  by destruct (IsEnabled _), (ClassExists _ _).
Qed.

(** The request decides alone: the same request with a fallback that fails
    and annotations naming another class. *)
Lemma C1_annotations_only_without_request_witness :
  fst (getContainerRdtClass
         {| rdt := {| IsEnabled := true;
                      ClassExists := λ cls, bool_decide (cls ∈ ["gold"; "silver"]);
                      ContainerClassFromAnnotations :=
                        λ _ _ _, ("", Some (ErrExternal "malformed annotation")) |};
            blockio := exampleBackend "blockio-class" true ["fast"; "slow"];
            ClassNameToLinuxOCI := λ cls, Ok cls;
            jsonUnmarshal := exampleUnmarshal;
            containerName := "containerd";
            criConfig := {| IgnoreRdtNotEnabledErrors := false;
                            IgnoreBlockIONotEnabledErrors := false |} |}
         (exampleContainer [mkQOSResource "rdt" "gold"]
                           {[ "rdt-class" := "silver" ]})
         (exampleSandbox [] {[ "rdt-class" := "silver" ]}) init)
  = fst (getContainerRdtClass (exampleEnv true true false false)
           (exampleContainer [mkQOSResource "rdt" "gold"] ∅)
           (exampleSandbox [] ∅) init).
Proof.
  apply (proj1 (proj2 (proj2 (C1_annotations_only_without_request
           (exampleEnv true true false false)
           (exampleContainer [mkQOSResource "rdt" "gold"] ∅)
           (exampleSandbox [] ∅) init)))).
  - reflexivity.
  - reflexivity.
  - reflexivity.
  - intros cls. reflexivity.
  - vm_compute. eexists. reflexivity.
Defined.

(** The spec's example: request class "gold" with annotation "silver". *)
Example gold_request_beats_silver_annotation :
  fst (getContainerRdtClass (exampleEnv true true false false)
         (exampleContainer [mkQOSResource "rdt" "gold"]
                           {[ "rdt-class" := "silver" ]})
         (exampleSandbox [] {[ "rdt-class" := "silver" ]}) init)
  = ("gold", None)
  ∧
  fst (getContainerRdtClass (exampleEnv true true false false)
         (exampleContainer [] {[ "rdt-class" := "silver" ]})
         (exampleSandbox [] ∅) init)
  = ("silver", None).
Proof. split; vm_compute; reflexivity. Qed.

(** C10. With several structured requests naming the same resource type, the
    class resolved is that of the last one in scan order. *)
Theorem C10_last_duplicate_request_wins {L} (env : Env L)
    (cfg : ContainerConfig) (sb : PodSandboxConfig) (w : World)
    (pre post : list QOSResource) (r : QOSResource) :
  ContainerQosResources cfg = pre ++ r :: post →
  (∀ r', r' ∈ post → Name r' ≠ Name r) →
  (Name r = QoSResourceRdt →
     fst (fst (getContainerRdtClass env cfg sb w)) = Class r)
  ∧ (Name r = QoSResourceBlockio →
     fst (fst (getContainerBlockioClass env cfg sb w)) = Class r).
Proof.
  intros Hqrs Hpost. split; intros Hr.
  - rewrite getContainerRdtClass_class. unfold effectiveClass.
    rewrite Hqrs, (requestedClass_app_last _ pre r post); [done|done|].
    by rewrite <-Hr.
  - rewrite getContainerBlockioClass_class. unfold effectiveClass.
    rewrite Hqrs, (requestedClass_app_last _ pre r post); [done|done|].
    by rewrite <-Hr.
Qed.

Lemma C10_last_duplicate_request_wins_witness :
  fst (fst (getContainerRdtClass (exampleEnv true true false false)
              (exampleContainer [mkQOSResource "rdt" "gold";
                                 mkQOSResource "blockio" "fast";
                                 mkQOSResource "rdt" "silver"] ∅)
              (exampleSandbox [] ∅) init)) = "silver".
Proof.
  refine (proj1 (C10_last_duplicate_request_wins
            (exampleEnv true true false false)
            (exampleContainer [mkQOSResource "rdt" "gold";
                               mkQOSResource "blockio" "fast";
                               mkQOSResource "rdt" "silver"] ∅)
            (exampleSandbox [] ∅) init
            [mkQOSResource "rdt" "gold"; mkQOSResource "blockio" "fast"]
            [] (mkQOSResource "rdt" "silver") eq_refl _) eq_refl).
  intros r' Hin. exfalso. inversion Hin.
Defined.

(** ** Frame properties: the package variables are only read *)

Lemma getContainerRdtClass_world {L} (env : Env L) cfg sb w w' :
  fst (getContainerRdtClass env cfg sb w) =
  fst (getContainerRdtClass env cfg sb w').
Proof.
  unfold getContainerRdtClass.
  destruct (classFromConfig _ _ _ _) as [[] cls]; run.
  - destruct (decide (cls = "")); [done|].
    by destruct (IsEnabled _), (ClassExists _ _).
  - destruct (ContainerClassFromAnnotations _ _ _ _) as [c [err|]]; [done|].
    destruct (decide (c = "")); [done|].
    by destruct (IsEnabled _), (ClassExists _ _).
Qed.

Lemma getContainerRdtClass_globals {L} (env : Env L) cfg sb w :
  globals (snd (getContainerRdtClass env cfg sb w)) = globals w.
Proof.
  unfold getContainerRdtClass.
  destruct (classFromConfig _ _ _ _) as [[] cls]; run.
  - destruct (decide (cls = "")); [done|].
    by destruct (IsEnabled _), (ClassExists _ _).
  - destruct (ContainerClassFromAnnotations _ _ _ _) as [c [err|]]; [done|].
    destruct (decide (c = "")); [done|].
    by destruct (IsEnabled _), (ClassExists _ _).
Qed.

Lemma getContainerBlockioClass_world {L} (env : Env L) cfg sb w w' :
  fst (getContainerBlockioClass env cfg sb w) =
  fst (getContainerBlockioClass env cfg sb w').
Proof.
  unfold getContainerBlockioClass.
  destruct (classFromConfig _ _ _ _) as [[] cls]; run.
  - destruct (decide (cls = "")); [done|].
    by destruct (IsEnabled _), (ClassExists _ _).
  - destruct (ContainerClassFromAnnotations _ _ _ _) as [c [err|]]; [done|].
    destruct (decide (c = "")); [done|].
    by destruct (IsEnabled _), (ClassExists _ _).
Qed.

Lemma getContainerBlockioClass_globals {L} (env : Env L) cfg sb w :
  globals (snd (getContainerBlockioClass env cfg sb w)) = globals w.
Proof.
  unfold getContainerBlockioClass.
  destruct (classFromConfig _ _ _ _) as [[] cls]; run.
  - destruct (decide (cls = "")); [done|].
    by destruct (IsEnabled _), (ClassExists _ _).
  - destruct (ContainerClassFromAnnotations _ _ _ _) as [c [err|]]; [done|].
    destruct (decide (c = "")); [done|].
    by destruct (IsEnabled _), (ClassExists _ _).
Qed.

(** The two steps, read off the resolver's result. *)
Lemma handleRdt_fst {L} (env : Env L) cfg sb opts w :
  fst (handleRdt env cfg sb opts w) =
    match fst (getContainerRdtClass env cfg sb w) with
    | (_, Some err) =>
        if negb (IsEnabled (rdt env))
           && IgnoreRdtNotEnabledErrors (criConfig env)
        then Ok opts else Err (ErrFailedToSetRdt err)
    | (cls, None) =>
        if decide (cls = "") then Ok opts
        else Ok (opts ++ [WithRdt cls "" ""])
    end.
Proof.
  unfold handleRdt, bind.
  destruct (getContainerRdtClass env cfg sb w) as [[cls [err|]] w1]; cbn.
  - by destruct (negb _ && _).
  - by destruct (decide (cls = "")).
Qed.

Lemma handleBlockio_fst {L} (env : Env L) cfg sb opts w :
  fst (handleBlockio env cfg sb opts w) =
    match fst (getContainerBlockioClass env cfg sb w) with
    | (_, Some err) =>
        if negb (IsEnabled (blockio env))
           && IgnoreBlockIONotEnabledErrors (criConfig env)
        then Ok opts else Err (ErrFailedToSetBlockio err)
    | (cls, None) =>
        if decide (cls = "") then Ok opts
        else match ClassNameToLinuxOCI env cls with
             | Ok linuxBlockIO => Ok (opts ++ [WithBlockIO linuxBlockIO])
             | Err err => Err err
             end
    end.
Proof.
  unfold handleBlockio, bind.
  destruct (getContainerBlockioClass env cfg sb w) as [[cls [err|]] w1]; cbn.
  - by destruct (negb _ && _).
  - destruct (decide (cls = "")); [done|]. by destruct (ClassNameToLinuxOCI _ _).
Qed.

Lemma handleRdt_world {L} (env : Env L) cfg sb opts w w' :
  fst (handleRdt env cfg sb opts w) = fst (handleRdt env cfg sb opts w').
Proof.
  by rewrite !handleRdt_fst, (getContainerRdtClass_world env cfg sb w w').
Qed.

Lemma handleBlockio_world {L} (env : Env L) cfg sb opts w w' :
  fst (handleBlockio env cfg sb opts w) = fst (handleBlockio env cfg sb opts w').
Proof.
  by rewrite !handleBlockio_fst, (getContainerBlockioClass_world env cfg sb w w').
Qed.

Lemma handleRdt_globals {L} (env : Env L) cfg sb opts w :
  globals (snd (handleRdt env cfg sb opts w)) = globals w.
Proof.
  unfold handleRdt, bind.
  pose proof (getContainerRdtClass_globals env cfg sb w) as Hg.
  destruct (getContainerRdtClass env cfg sb w) as [[cls [err|]] w1]; cbn in *.
  - by destruct (negb _ && _).
  - by destruct (decide (cls = "")).
Qed.

Lemma handleBlockio_globals {L} (env : Env L) cfg sb opts w :
  globals (snd (handleBlockio env cfg sb opts w)) = globals w.
Proof.
  unfold handleBlockio, bind.
  pose proof (getContainerBlockioClass_globals env cfg sb w) as Hg.
  destruct (getContainerBlockioClass env cfg sb w) as [[cls [err|]] w1]; cbn in *.
  - by destruct (negb _ && _).
  - destruct (decide (cls = "")); [done|]. by destruct (ClassNameToLinuxOCI _ _).
Qed.

Lemma containerQoSLoop_globals qrs w :
  globals (snd (containerQoSLoop qrs w)) = globals w.
Proof.
  revert w. induction qrs as [|r rest IH]; intros w; [done|].
  cbn [containerQoSLoop]. run.
  destruct (decide (Name r = QoSResourceRdt));
    [|destruct (decide (Name r = QoSResourceBlockio))]; cbn.
  1,2: destruct (decide (Class r = "")); [done|apply IH].
  destruct (dummyContainerQoSResources w !! Name r) as [cr|]; cbn; [|done].
  destruct (decide (Class r ∈ cr)); cbn; [|done].
  destruct (decide (Class r = "")); [done|]. by rewrite IH.
Qed.

Lemma containerQoSLoop_world qrs w w' :
  dummyContainerQoSResources w = dummyContainerQoSResources w' →
  fst (containerQoSLoop qrs w) = fst (containerQoSLoop qrs w').
Proof.
  revert w w'. induction qrs as [|r rest IH]; intros w w' Hd; [done|].
  cbn [containerQoSLoop]. run.
  destruct (decide (Name r = QoSResourceRdt));
    [|destruct (decide (Name r = QoSResourceBlockio))]; cbn.
  1,2: destruct (decide (Class r = "")); [done|by apply IH].
  rewrite <-Hd.
  destruct (dummyContainerQoSResources w !! Name r) as [cr|]; cbn; [|done].
  destruct (decide (Class r ∈ cr)); cbn; [|done].
  destruct (decide (Class r = "")); [done|]. by apply IH.
Qed.

(** [generateContainerQoSResourceSpecOpts] as the sequence of its three
    steps, each read in the starting world. *)
Lemma generateContainerQoSResourceSpecOpts_fst {L} (env : Env L) cfg sb w :
  fst (generateContainerQoSResourceSpecOpts env cfg sb w) =
    match fst (containerQoSLoop (ContainerQosResources cfg) w) with
    | Some err => Err err
    | None =>
        match fst (handleRdt env cfg sb [] w) with
        | Err err => Err err
        | Ok specOpts => fst (handleBlockio env cfg sb specOpts w)
        end
    end.
Proof.
  unfold generateContainerQoSResourceSpecOpts, bind.
  destruct (containerQoSLoop _ w) as [[err|] w1]; cbn; [done|].
  rewrite (handleRdt_world env cfg sb [] w w1).
  destruct (handleRdt env cfg sb [] w1) as [[opts|err] w2]; cbn; [|done].
  apply handleBlockio_world.
Qed.

Lemma generateContainerQoSResourceSpecOpts_globals {L} (env : Env L) cfg sb w :
  globals (snd (generateContainerQoSResourceSpecOpts env cfg sb w)) = globals w.
Proof.
  unfold generateContainerQoSResourceSpecOpts, bind.
  pose proof (containerQoSLoop_globals (ContainerQosResources cfg) w) as H1.
  destruct (containerQoSLoop _ w) as [[err|] w1]; cbn in *; [done|].
  pose proof (handleRdt_globals env cfg sb [] w1) as H2.
  destruct (handleRdt env cfg sb [] w1) as [[opts|err] w2]; cbn in *.
  - rewrite handleBlockio_globals. congruence.
  - congruence.
Qed.

Lemma generateContainerQoSResourceSpecOpts_world {L} (env : Env L) cfg sb w w' :
  globals w' = globals w →
  fst (generateContainerQoSResourceSpecOpts env cfg sb w') =
  fst (generateContainerQoSResourceSpecOpts env cfg sb w).
Proof.
  intros Hg. rewrite !generateContainerQoSResourceSpecOpts_fst.
  assert (dummyContainerQoSResources w' = dummyContainerQoSResources w) as Hd
    by (unfold globals in Hg; congruence).
  rewrite (containerQoSLoop_world _ w' w Hd).
  destruct (fst (containerQoSLoop _ w)); [done|].
  rewrite (handleRdt_world env cfg sb [] w' w).
  destruct (fst (handleRdt env cfg sb [] w)); [|done].
  apply handleBlockio_world.
Qed.

(** C9. The result of [generateContainerQoSResourceSpecOpts] is fixed by the
    configs, the backends and the package variables alone: two worlds with
    the same package variables give the same ordered mutations (or the same
    error), a run leaves the package variables as it found them, and so a
    second run started where the first one ended repeats its result. *)
Theorem C9_replay_gives_identical_mutations {L} (env : Env L)
    (cfg : ContainerConfig) (sb : PodSandboxConfig) (w w' : World) :
  globals w' = globals w →
  fst (generateContainerQoSResourceSpecOpts env cfg sb w') =
  fst (generateContainerQoSResourceSpecOpts env cfg sb w)
  ∧ globals (snd (generateContainerQoSResourceSpecOpts env cfg sb w))
    = globals w
  ∧ fst (generateContainerQoSResourceSpecOpts env cfg sb
           (snd (generateContainerQoSResourceSpecOpts env cfg sb w))) =
    fst (generateContainerQoSResourceSpecOpts env cfg sb w).
Proof.
  intros Hg. split; [|split].
  - by apply generateContainerQoSResourceSpecOpts_world.
  - apply generateContainerQoSResourceSpecOpts_globals.
  - apply generateContainerQoSResourceSpecOpts_world,
      generateContainerQoSResourceSpecOpts_globals.
Qed.

Lemma C9_replay_gives_identical_mutations_witness :
  fst (generateContainerQoSResourceSpecOpts (exampleEnv true true false false)
         (exampleContainer [mkQOSResource "dummy-2" "gold";
                            mkQOSResource "rdt" "gold"] ∅)
         (exampleSandbox [] ∅)
         (snd (logf (LogParsingCniConfig "earlier") init)))
  = fst (generateContainerQoSResourceSpecOpts (exampleEnv true true false false)
         (exampleContainer [mkQOSResource "dummy-2" "gold";
                            mkQOSResource "rdt" "gold"] ∅)
         (exampleSandbox [] ∅) init).
Proof.
  apply (C9_replay_gives_identical_mutations
           (exampleEnv true true false false)
           (exampleContainer [mkQOSResource "dummy-2" "gold";
                              mkQOSResource "rdt" "gold"] ∅)
           (exampleSandbox [] ∅) init
           (snd (logf (LogParsingCniConfig "earlier") init))).
  reflexivity.
Defined.

(** ** Requests behind a requested class *)


(** ** The request loop of the container-level generator *)

Lemma containerQoSLoop_cons r rest w :
  fst (containerQoSLoop (r :: rest) w) =
    if decide (Name r = QoSResourceRdt ∨ Name r = QoSResourceBlockio)
    then if decide (Class r = "") then Some (ErrEmptyClass (Name r))
         else fst (containerQoSLoop rest w)
    else match dummyContainerQoSResources w !! Name r with
         | None => Some (ErrUnknownResourceType (Name r))
         | Some cr =>
             if decide (Class r ∈ cr)
             then if decide (Class r = "") then Some (ErrEmptyClass (Name r))
                  else fst (containerQoSLoop rest w)
             else Some (ErrUnknownClass (Name r) (Class r))
         end.
Proof.
  cbn [containerQoSLoop]. run.
  destruct (decide (Name r = QoSResourceRdt)) as [Hr|Hr];
    [|destruct (decide (Name r = QoSResourceBlockio)) as [Hb|Hb]]; cbn.
  1,2: destruct (decide (_ ∨ _)) as [_|Hor]; [|exfalso; apply Hor; auto];
       by destruct (decide (Class r = "")).
  destruct (decide (_ ∨ _)) as [[|]|_]; [done|done|].
  destruct (dummyContainerQoSResources w !! Name r) as [cr|]; cbn; [|done].
  destruct (decide (Class r ∈ cr)); cbn; [|done].
  destruct (decide (Class r = "")); [done|].
  by apply containerQoSLoop_world.
Qed.

Lemma containerQoSLoop_app pre post w :
  fst (containerQoSLoop pre w) = None →
  fst (containerQoSLoop (pre ++ post) w) = fst (containerQoSLoop post w).
Proof.
  induction pre as [|r pre IH]; [done|].
  rewrite <-app_comm_cons, !containerQoSLoop_cons.
  repeat case_match; try done; auto.
Qed.

Lemma containerQoSLoop_pass_nonempty qrs w r :
  fst (containerQoSLoop qrs w) = None → r ∈ qrs → Class r ≠ "".
Proof.
  induction qrs as [|q qrs IH]; intros Hpass Hin; [by apply elem_of_nil in Hin|].
  rewrite containerQoSLoop_cons in Hpass.
  apply elem_of_cons in Hin as [->|Hin].
  - repeat case_match; done.
  - apply IH; [|done]. repeat case_match; done.
Qed.

(** ** Mutations of the container-level generator *)

Lemma handleRdt_Ok {L} (env : Env L) cfg sb opts opts' w :
  fst (handleRdt env cfg sb opts w) = Ok opts' →
  opts' = opts
  ∨ ∃ cls, opts' = opts ++ [WithRdt cls "" ""] ∧ cls ≠ ""
           ∧ effectiveClass (rdt env) QoSResourceRdt cfg sb = (cls, None)
           ∧ IsEnabled (rdt env) = true ∧ ClassExists (rdt env) cls = true.
Proof.
  rewrite handleRdt_fst, getContainerRdtClass_fst.
  destruct (effectiveClass _ _ _ _) as [cls [err|]].
  { destruct (negb _ && _); [|done]. intros [= <-]. by left. }
  destruct (decide (cls = "")) as [->|Hne].
  { rewrite decide_True by done. intros [= <-]. by left. }
  destruct (IsEnabled (rdt env)) eqn:Hen; cbn.
  - destruct (ClassExists (rdt env) cls) eqn:Hex; cbn.
    + rewrite decide_False by done. intros [= <-]. right. by exists cls.
    + done.
  - destruct (IgnoreRdtNotEnabledErrors _); [|done]. intros [= <-]. by left.
Qed.

Lemma handleBlockio_Ok {L} (env : Env L) cfg sb opts opts' w :
  fst (handleBlockio env cfg sb opts w) = Ok opts' →
  opts' = opts
  ∨ ∃ cls l, opts' = opts ++ [WithBlockIO l] ∧ cls ≠ ""
             ∧ effectiveClass (blockio env) QoSResourceBlockio cfg sb = (cls, None)
             ∧ IsEnabled (blockio env) = true
             ∧ ClassExists (blockio env) cls = true
             ∧ ClassNameToLinuxOCI env cls = Ok l.
Proof.
  rewrite handleBlockio_fst, getContainerBlockioClass_fst.
  destruct (effectiveClass _ _ _ _) as [cls [err|]].
  { destruct (negb _ && _); [|done]. intros [= <-]. by left. }
  destruct (decide (cls = "")) as [->|Hne].
  { rewrite decide_True by done. intros [= <-]. by left. }
  destruct (IsEnabled (blockio env)) eqn:Hen; cbn.
  - destruct (ClassExists (blockio env) cls) eqn:Hex; cbn.
    + rewrite decide_False by done.
      destruct (ClassNameToLinuxOCI env cls) as [l|] eqn:Hoci; [|done].
      intros [= <-]. right. by exists cls, l.
    + done.
  - destruct (IgnoreBlockIONotEnabledErrors _); [|done]. intros [= <-]. by left.
Qed.

Lemma filter_rdt_opts {L} (rcls : string) (rest : list (SpecOpts L)) :
  Forall (λ o, optResource o = QoSResourceBlockio) rest →
  filter (λ o : SpecOpts L, optResource o = QoSResourceRdt)
    ((if decide (rcls = "") then [] else [WithRdt rcls "" ""]) ++ rest)
  = if decide (rcls = "") then [] else [WithRdt rcls "" ""].
Proof.
  intros Hrest.
  assert (filter (λ o : SpecOpts L, optResource o = QoSResourceRdt) rest = [])
    as Hnil.
  { induction Hrest as [|o rest Ho _ IH]; [done|].
    rewrite filter_cons, decide_False; [done|]. by rewrite Ho. }
  rewrite filter_app, Hnil, app_nil_r.
  destruct (decide (rcls = "")); [done|].
  by rewrite filter_cons, decide_True.
Qed.

Lemma filter_blockio_opts {L} (bcls : string) (l : L)
    (before : list (SpecOpts L)) :
  Forall (λ o, optResource o = QoSResourceRdt) before →
  filter (λ o : SpecOpts L, optResource o = QoSResourceBlockio)
    (before ++ (if decide (bcls = "") then [] else [WithBlockIO l]))
  = if decide (bcls = "") then [] else [WithBlockIO l].
Proof.
  intros Hbefore.
  assert (filter (λ o : SpecOpts L, optResource o = QoSResourceBlockio) before
          = []) as Hnil.
  { induction Hbefore as [|o before Ho _ IH]; [done|].
    rewrite filter_cons, decide_False; [done|]. by rewrite Ho. }
  rewrite filter_app, Hnil. cbn.
  destruct (decide (bcls = "")); [done|].
  by rewrite filter_cons, decide_True.
Qed.

(** C3 (amended). When every request passes the request loop, each of RDT
    and block-I/O, taken by itself, contributes exactly one mutation naming
    its effective class -- the class of the last request for the type or,
    without a request, the class the annotations give -- when that class
    exists in the catalog of the enabled backend (and, for block-I/O,
    converts to OCI parameters), and contributes no mutation and no error
    when there is neither a request nor an annotation-derived class.  The
    generator returns the contributions, RDT's before block-I/O's, unless
    the step of the other type fails: then it returns that step's error and
    no mutation at all. *)
Theorem C3_one_mutation_per_effective_class {L} (env : Env L)
    (cfg : ContainerConfig) (sb : PodSandboxConfig) (w : World)
    (rcls bcls : string) (linuxBlockIO : L) :
  fst (containerQoSLoop (ContainerQosResources cfg) w) = None →
  (effectiveClass (rdt env) QoSResourceRdt cfg sb = (rcls, None) →
   (rcls ≠ "" →
      IsEnabled (rdt env) = true ∧ ClassExists (rdt env) rcls = true) →
   (∀ specOpts,
      fst (handleRdt env cfg sb specOpts w) =
        Ok (specOpts ++ (if decide (rcls = "") then []
                         else [WithRdt rcls "" ""])))
   ∧ fst (generateContainerQoSResourceSpecOpts env cfg sb w) =
       fst (handleBlockio env cfg sb
              (if decide (rcls = "") then [] else [WithRdt rcls "" ""]) w)
   ∧ (∀ opts,
        fst (generateContainerQoSResourceSpecOpts env cfg sb w) = Ok opts →
        filter (λ o, optResource o = QoSResourceRdt) opts =
          if decide (rcls = "") then [] else [WithRdt rcls "" ""]))
  ∧ (effectiveClass (blockio env) QoSResourceBlockio cfg sb = (bcls, None) →
     (bcls ≠ "" →
        IsEnabled (blockio env) = true ∧ ClassExists (blockio env) bcls = true
        ∧ ClassNameToLinuxOCI env bcls = Ok linuxBlockIO) →
     (∀ specOpts,
        fst (handleBlockio env cfg sb specOpts w) =
          Ok (specOpts ++ (if decide (bcls = "") then []
                           else [WithBlockIO linuxBlockIO])))
     ∧ fst (generateContainerQoSResourceSpecOpts env cfg sb w) =
         match fst (handleRdt env cfg sb [] w) with
         | Err err => Err err
         | Ok specOpts =>
             Ok (specOpts ++ (if decide (bcls = "") then []
                              else [WithBlockIO linuxBlockIO]))
         end
     ∧ (∀ opts,
          fst (generateContainerQoSResourceSpecOpts env cfg sb w) = Ok opts →
          filter (λ o, optResource o = QoSResourceBlockio) opts =
            if decide (bcls = "") then [] else [WithBlockIO linuxBlockIO]))
  ∧ (effectiveClass (rdt env) QoSResourceRdt cfg sb = (rcls, None) →
     effectiveClass (blockio env) QoSResourceBlockio cfg sb = (bcls, None) →
     (rcls ≠ "" →
        IsEnabled (rdt env) = true ∧ ClassExists (rdt env) rcls = true) →
     (bcls ≠ "" →
        IsEnabled (blockio env) = true ∧ ClassExists (blockio env) bcls = true
        ∧ ClassNameToLinuxOCI env bcls = Ok linuxBlockIO) →
     fst (generateContainerQoSResourceSpecOpts env cfg sb w) =
       Ok ((if decide (rcls = "") then [] else [WithRdt rcls "" ""])
           ++ (if decide (bcls = "") then [] else [WithBlockIO linuxBlockIO]))).
Proof.
  intros Hscan.
  assert (effectiveClass (rdt env) QoSResourceRdt cfg sb = (rcls, None) →
          (rcls ≠ "" →
             IsEnabled (rdt env) = true ∧ ClassExists (rdt env) rcls = true) →
          ∀ specOpts,
            fst (handleRdt env cfg sb specOpts w) =
              Ok (specOpts ++ (if decide (rcls = "") then []
                               else [WithRdt rcls "" ""]))) as Hrdt.
  { intros Hr Hok specOpts. rewrite handleRdt_fst, getContainerRdtClass_fst, Hr.
    destruct (decide (rcls = "")) as [->|Hne].
    - by rewrite decide_True, app_nil_r.
    - destruct (Hok Hne) as [-> ->]; cbn. by rewrite decide_False. }
  assert (effectiveClass (blockio env) QoSResourceBlockio cfg sb = (bcls, None) →
          (bcls ≠ "" →
             IsEnabled (blockio env) = true
             ∧ ClassExists (blockio env) bcls = true
             ∧ ClassNameToLinuxOCI env bcls = Ok linuxBlockIO) →
          ∀ specOpts,
            fst (handleBlockio env cfg sb specOpts w) =
              Ok (specOpts ++ (if decide (bcls = "") then []
                               else [WithBlockIO linuxBlockIO]))) as Hbio.
  { intros Hb Hok specOpts.
    rewrite handleBlockio_fst, getContainerBlockioClass_fst, Hb.
    destruct (decide (bcls = "")) as [->|Hne].
    - by rewrite decide_True, app_nil_r.
    - destruct (Hok Hne) as (-> & -> & Hoci); cbn.
      by rewrite decide_False, Hoci. }
  split; [|split].
  - intros Hr Hok. split; [by apply Hrdt|].
    assert (fst (generateContainerQoSResourceSpecOpts env cfg sb w) =
            fst (handleBlockio env cfg sb
                   (if decide (rcls = "") then [] else [WithRdt rcls "" ""]) w))
      as Hgen.
    { by rewrite generateContainerQoSResourceSpecOpts_fst, Hscan,
        (Hrdt Hr Hok []). }
    split; [done|]. intros opts. rewrite Hgen. intros Hopts.
    apply handleBlockio_Ok in Hopts as [->|(c & l & -> & _)].
    + rewrite <-(app_nil_r (if decide (rcls = "") then [] else _)) at 1.
      by apply filter_rdt_opts.
    + apply filter_rdt_opts. by apply Forall_singleton.
  - intros Hb Hok. split; [by apply Hbio|].
    assert (fst (generateContainerQoSResourceSpecOpts env cfg sb w) =
            match fst (handleRdt env cfg sb [] w) with
            | Err err => Err err
            | Ok specOpts =>
                Ok (specOpts ++ (if decide (bcls = "") then []
                                 else [WithBlockIO linuxBlockIO]))
            end) as Hgen.
    { rewrite generateContainerQoSResourceSpecOpts_fst, Hscan.
      destruct (fst (handleRdt env cfg sb [] w)); [|done]. by apply Hbio. }
    split; [done|]. intros opts. rewrite Hgen.
    destruct (fst (handleRdt env cfg sb [] w)) as [ropts|] eqn:Hropts; [|done].
    intros [= <-]. apply filter_blockio_opts.
    apply handleRdt_Ok in Hropts as [->|(c & -> & _)]; [done|].
    by apply Forall_singleton.
  - intros Hr Hb Hrok Hbok.
    rewrite generateContainerQoSResourceSpecOpts_fst, Hscan.
    rewrite (Hrdt Hr Hrok []). cbn [app]. by apply Hbio.
Qed.

Lemma C3_one_mutation_per_effective_class_witness :
  fst (generateContainerQoSResourceSpecOpts (exampleEnv true false false true)
         (exampleContainer [mkQOSResource "rdt" "gold";
                            mkQOSResource "blockio" "turbo"] ∅)
         (exampleSandbox [] ∅) init)
  = Ok [WithRdt "gold" "" ""]
  ∧ fst (generateContainerQoSResourceSpecOpts (exampleEnv true true false false)
           (exampleContainer [mkQOSResource "rdt" "gold"] ∅)
           (exampleSandbox [] ∅) init)
    = Ok [WithRdt "gold" "" ""].
Proof.
  split.
  - etrans.
    + refine (proj1 (proj2 (proj1 (C3_one_mutation_per_effective_class
                (exampleEnv true false false true)
                (exampleContainer [mkQOSResource "rdt" "gold";
                                   mkQOSResource "blockio" "turbo"] ∅)
                (exampleSandbox [] ∅) init "gold" "" "" _) _ _))).
      * vm_compute. reflexivity.
      * vm_compute. reflexivity.
      * intros _. split; vm_compute; reflexivity.
    + vm_compute. reflexivity.
  - refine (proj2 (proj2 (C3_one_mutation_per_effective_class
              (exampleEnv true true false false)
              (exampleContainer [mkQOSResource "rdt" "gold"] ∅)
              (exampleSandbox [] ∅) init "gold" "" "" _)) _ _ _ _).
    + vm_compute. reflexivity.
    + vm_compute. reflexivity.
    + vm_compute. reflexivity.
    + intros _. split; vm_compute; reflexivity.
    + intros H. exfalso. apply H. reflexivity.
Defined.

(** The other type's step decides whether anything is returned: the valid
    RDT class "gold" beside a block-I/O class the backend does not know. *)
Example valid_rdt_class_beside_unknown_blockio_class :
  fst (generateContainerQoSResourceSpecOpts (exampleEnv true true false false)
         (exampleContainer [mkQOSResource "rdt" "gold";
                            mkQOSResource "blockio" "turbo"] ∅)
         (exampleSandbox [] ∅) init)
  = Err (ErrFailedToSetBlockio (ErrInvalidBlockioClass "turbo")).
Proof. vm_compute. reflexivity. Qed.

(** Counterexample to C3 as stated: a config without any request, whose
    annotations name the RDT class "silver", gets one RDT mutation. *)
Lemma C3_counterexample :
  requestedClass QoSResourceRdt
    (ContainerQosResources
       (exampleContainer [] {[ "rdt-class" := "silver" ]})) = None
  ∧ fst (generateContainerQoSResourceSpecOpts
           (exampleEnv true true false false)
           (exampleContainer [] {[ "rdt-class" := "silver" ]})
           (exampleSandbox [] ∅) init)
    = Ok [WithRdt "silver" "" ""].
Proof. split; vm_compute; reflexivity. Qed.

(** C6 (amended). When the requests pass the request loop and resolve to
    non-empty RDT and block-I/O classes, the mutations come in a fixed
    order, RDT first and block-I/O second, whatever the order of the
    requests on the config. *)
Theorem C6_rdt_mutation_precedes_blockio {L} (env : Env L)
    (cfg : ContainerConfig) (sb : PodSandboxConfig) (w : World)
    (rcls bcls : string) (linuxBlockIO : L) :
  fst (containerQoSLoop (ContainerQosResources cfg) w) = None →
  fst (getContainerRdtClass env cfg sb w) = (rcls, None) →
  fst (getContainerBlockioClass env cfg sb w) = (bcls, None) →
  rcls ≠ "" → bcls ≠ "" →
  ClassNameToLinuxOCI env bcls = Ok linuxBlockIO →
  fst (generateContainerQoSResourceSpecOpts env cfg sb w) =
    Ok [WithRdt rcls "" ""; WithBlockIO linuxBlockIO].
Proof.
  intros Hscan Hr Hb Hrne Hbne Hoci.
  rewrite generateContainerQoSResourceSpecOpts_fst, Hscan.
  rewrite handleRdt_fst, Hr, decide_False by done.
  by rewrite handleBlockio_fst, Hb, decide_False, Hoci.
Qed.

(** Whatever the config, a successful run returns at most one RDT mutation
    and at most one block-I/O mutation, in this order. *)
Lemma generateContainerQoSResourceSpecOpts_order {L} (env : Env L) cfg sb w opts :
  fst (generateContainerQoSResourceSpecOpts env cfg sb w) = Ok opts →
  optResource <$> opts = []
  ∨ optResource <$> opts = [QoSResourceRdt]
  ∨ optResource <$> opts = [QoSResourceBlockio]
  ∨ optResource <$> opts = [QoSResourceRdt; QoSResourceBlockio].
Proof.
  rewrite generateContainerQoSResourceSpecOpts_fst.
  destruct (fst (containerQoSLoop _ w)); [done|].
  rewrite handleRdt_fst.
  destruct (fst (getContainerRdtClass env cfg sb w)) as [rc [rerr|]].
  - destruct (negb _ && _); [|done].
    rewrite handleBlockio_fst.
    destruct (fst (getContainerBlockioClass env cfg sb w)) as [bc [berr|]].
    + destruct (negb _ && _); [|done]. intros [= <-]. by left.
    + destruct (decide (bc = "")); [intros [= <-]; by left|].
      destruct (ClassNameToLinuxOCI env bc); [|done].
      intros [= <-]. right; right; by left.
  - destruct (decide (rc = "")).
    + rewrite handleBlockio_fst.
      destruct (fst (getContainerBlockioClass env cfg sb w)) as [bc [berr|]].
      * destruct (negb _ && _); [|done]. intros [= <-]. by left.
      * destruct (decide (bc = "")); [intros [= <-]; by left|].
        destruct (ClassNameToLinuxOCI env bc); [|done].
        intros [= <-]. right; right; by left.
    + rewrite handleBlockio_fst.
      destruct (fst (getContainerBlockioClass env cfg sb w)) as [bc [berr|]].
      * destruct (negb _ && _); [|done]. intros [= <-]. right; by left.
      * destruct (decide (bc = "")); [intros [= <-]; right; by left|].
        destruct (ClassNameToLinuxOCI env bc); [|done].
        intros [= <-]. by repeat right.
Qed.

Lemma C6_rdt_mutation_precedes_blockio_witness :
  fst (generateContainerQoSResourceSpecOpts (exampleEnv true true false false)
         (exampleContainer [mkQOSResource "blockio" "fast";
                            mkQOSResource "rdt" "gold"] ∅)
         (exampleSandbox [] ∅) init)
  = Ok [WithRdt "gold" "" ""; WithBlockIO "fast"].
Proof.
  apply (C6_rdt_mutation_precedes_blockio
           (exampleEnv true true false false)
           (exampleContainer [mkQOSResource "blockio" "fast";
                              mkQOSResource "rdt" "gold"] ∅)
           (exampleSandbox [] ∅) init "gold" "fast" "fast").
  - vm_compute; reflexivity.
  - vm_compute; reflexivity.
  - vm_compute; reflexivity.
  - discriminate.
  - discriminate.
  - reflexivity.
Defined.

(** Counterexample to C6 as stated: with the block-I/O request scanned
    before the RDT request, the mutations are not in request-scan order. *)
Lemma C6_counterexample :
  fst (generateContainerQoSResourceSpecOpts
         (exampleEnv true true false false)
         (exampleContainer [mkQOSResource "blockio" "fast";
                            mkQOSResource "rdt" "gold"] ∅)
         (exampleSandbox [] ∅) init)
  = Ok [WithRdt "gold" "" ""; WithBlockIO "fast"]
  ∧ optResource <$> [WithRdt "gold" "" ""; WithBlockIO "fast"]
    ≠ Name <$> [mkQOSResource "blockio" "fast"; mkQOSResource "rdt" "gold"].
Proof. split; [vm_compute; reflexivity|discriminate]. Qed.

(** ** Unknown classes and the ignore-not-enabled flags *)






(** ** The request loops of the pod-level generators *)

Lemma sandboxQoSLoop_world qrs w w' :
  dummyPodQoSResources w = dummyPodQoSResources w' →
  fst (sandboxQoSLoop qrs w) = fst (sandboxQoSLoop qrs w').
Proof.
  revert w w'. induction qrs as [|r rest IH]; intros w w' Hd; [done|].
  cbn [sandboxQoSLoop]. run.
  destruct (decide (Name r = QoSResourceNet)); cbn.
  { destruct (decide (Class r = "")); [done|by apply IH]. }
  rewrite <-Hd.
  destruct (dummyPodQoSResources w !! Name r) as [cr|]; cbn; [|done].
  destruct (decide (Class r ∈ cr)); cbn; [|done].
  destruct (decide (Class r = "")); [done|]. by apply IH.
Qed.

Lemma sandboxQoSLoop_globals qrs w :
  globals (snd (sandboxQoSLoop qrs w)) = globals w.
Proof.
  revert w. induction qrs as [|r rest IH]; intros w; [done|].
  cbn [sandboxQoSLoop]. run.
  destruct (decide (Name r = QoSResourceNet)); cbn.
  { destruct (decide (Class r = "")); [done|apply IH]. }
  destruct (dummyPodQoSResources w !! Name r) as [cr|]; cbn; [|done].
  destruct (decide (Class r ∈ cr)); cbn; [|done].
  destruct (decide (Class r = "")); [done|]. by rewrite IH.
Qed.

Lemma sandboxQoSLoop_cons r rest w :
  fst (sandboxQoSLoop (r :: rest) w) =
    if decide (Name r = QoSResourceNet)
    then if decide (Class r = "") then Some (ErrEmptyClass (Name r))
         else fst (sandboxQoSLoop rest w)
    else match dummyPodQoSResources w !! Name r with
         | None => Some (ErrUnknownPodResourceType (Name r))
         | Some cr =>
             if decide (Class r ∈ cr)
             then if decide (Class r = "") then Some (ErrEmptyClass (Name r))
                  else fst (sandboxQoSLoop rest w)
             else Some (ErrUnknownClass (Name r) (Class r))
         end.
Proof.
  cbn [sandboxQoSLoop]. run.
  destruct (decide (Name r = QoSResourceNet)); cbn.
  { by destruct (decide (Class r = "")). }
  destruct (dummyPodQoSResources w !! Name r) as [cr|]; cbn; [|done].
  destruct (decide (Class r ∈ cr)); cbn; [|done].
  destruct (decide (Class r = "")); [done|].
  by apply sandboxQoSLoop_world.
Qed.

Lemma sandboxQoSLoop_app pre post w :
  fst (sandboxQoSLoop pre w) = None →
  fst (sandboxQoSLoop (pre ++ post) w) = fst (sandboxQoSLoop post w).
Proof.
  induction pre as [|r pre IH]; [done|].
  rewrite <-app_comm_cons, !sandboxQoSLoop_cons.
  repeat case_match; try done; auto.
Qed.

Lemma sandboxQoSLoop_pass_nonempty qrs w r :
  fst (sandboxQoSLoop qrs w) = None → r ∈ qrs → Class r ≠ "".
Proof.
  induction qrs as [|q qrs IH]; intros Hpass Hin; [by apply elem_of_nil in Hin|].
  rewrite sandboxQoSLoop_cons in Hpass.
  apply elem_of_cons in Hin as [->|Hin].
  - repeat case_match; done.
  - apply IH; [|done]. repeat case_match; done.
Qed.

Lemma NoNet_sandboxQoSLoop_world qrs w w' :
  dummyPodQoSResources w = dummyPodQoSResources w' →
  fst (NoNet.sandboxQoSLoop qrs w) = fst (NoNet.sandboxQoSLoop qrs w').
Proof.
  revert w w'. induction qrs as [|r rest IH]; intros w w' Hd; [done|].
  cbn [NoNet.sandboxQoSLoop]. run. rewrite <-Hd.
  destruct (dummyPodQoSResources w !! Name r) as [cr|]; cbn; [|done].
  destruct (decide (Class r ∈ cr)); cbn; [|done].
  destruct (decide (Class r = "")); [done|]. by apply IH.
Qed.

Lemma NoNet_sandboxQoSLoop_cons r rest w :
  fst (NoNet.sandboxQoSLoop (r :: rest) w) =
    match dummyPodQoSResources w !! Name r with
    | None => Some (ErrUnknownPodResourceType (Name r))
    | Some cr =>
        if decide (Class r ∈ cr)
        then if decide (Class r = "") then Some (ErrEmptyClass (Name r))
             else fst (NoNet.sandboxQoSLoop rest w)
        else Some (ErrUnknownClass (Name r) (Class r))
    end.
Proof.
  cbn [NoNet.sandboxQoSLoop]. run.
  destruct (dummyPodQoSResources w !! Name r) as [cr|]; cbn; [|done].
  destruct (decide (Class r ∈ cr)); cbn; [|done].
  destruct (decide (Class r = "")); [done|].
  by apply NoNet_sandboxQoSLoop_world.
Qed.

Lemma NoNet_sandboxQoSLoop_app pre post w :
  fst (NoNet.sandboxQoSLoop pre w) = None →
  fst (NoNet.sandboxQoSLoop (pre ++ post) w) = fst (NoNet.sandboxQoSLoop post w).
Proof.
  induction pre as [|r pre IH]; [done|].
  rewrite <-app_comm_cons, !NoNet_sandboxQoSLoop_cons.
  repeat case_match; try done; auto.
Qed.

Lemma NoNet_sandboxQoSLoop_pass_nonempty qrs w r :
  fst (NoNet.sandboxQoSLoop qrs w) = None → r ∈ qrs → Class r ≠ "".
Proof.
  induction qrs as [|q qrs IH]; intros Hpass Hin; [by apply elem_of_nil in Hin|].
  rewrite NoNet_sandboxQoSLoop_cons in Hpass.
  apply elem_of_cons in Hin as [->|Hin].
  - repeat case_match; done.
  - apply IH; [|done]. repeat case_match; done.
Qed.

Lemma generateSandboxQoSResourceSpecOpts_fst {L} sb w :
  fst (generateSandboxQoSResourceSpecOpts (LinuxBlockIO:=L) sb w) =
    match fst (sandboxQoSLoop (PodQosResources sb) w) with
    | Some err => Err err
    | None => Ok []
    end.
Proof.
  unfold generateSandboxQoSResourceSpecOpts, bind.
  by destruct (sandboxQoSLoop _ w) as [[err|] w1].
Qed.

Lemma NoNet_generateSandboxQoSResourceSpecOpts_fst {L} sb w :
  fst (NoNet.generateSandboxQoSResourceSpecOpts (LinuxBlockIO:=L) sb w) =
    match fst (NoNet.sandboxQoSLoop (PodQosResources sb) w) with
    | Some err => Err err
    | None => Ok []
    end.
Proof.
  unfold NoNet.generateSandboxQoSResourceSpecOpts, bind.
  by destruct (NoNet.sandboxQoSLoop _ w) as [[err|] w1].
Qed.

(** The placeholder catalogs built by [init] list no empty class name. *)
Lemma init_catalogs_without_empty_class :
  map_Forall (λ _ cr, "" ∉ cr) (dummyContainerQoSResources init)
  ∧ map_Forall (λ _ cr, "" ∉ cr) (dummyPodQoSResources init).
Proof. split; apply (bool_decide_unpack _); vm_compute; exact I. Qed.

(** ** Requests with an empty class *)

(** C2 (amended). A config carrying a request with an empty class never
    gets a mutation list: both generators return an error.  When the
    requests before it pass the loop, the error is the empty-class error for
    that type if the type has a case of its own in the loop (RDT and
    block-I/O on containers, ["net"] on pods where the CNI resource exists)
    or if its placeholder catalog lists the empty name; for any other type
    it is the unknown-type error when the type is not a placeholder type and
    the unknown-class error when it is. *)
Theorem C2_empty_class_is_always_an_error {L} (env : Env L) (w : World)
    (pre post : list QOSResource) (r : QOSResource) :
  Class r = "" →
  (∀ cfg sb, ContainerQosResources cfg = pre ++ r :: post →
     (∃ e, fst (generateContainerQoSResourceSpecOpts env cfg sb w) = Err e)
     ∧ (fst (containerQoSLoop pre w) = None →
        fst (generateContainerQoSResourceSpecOpts env cfg sb w) =
          Err (emptyClassOutcome
                 (Name r = QoSResourceRdt ∨ Name r = QoSResourceBlockio)
                 (dummyContainerQoSResources w) ErrUnknownResourceType
                 (Name r))))
  ∧ (∀ sb, PodQosResources sb = pre ++ r :: post →
     (∃ e, fst (generateSandboxQoSResourceSpecOpts (LinuxBlockIO:=L) sb w)
           = Err e)
     ∧ (fst (sandboxQoSLoop pre w) = None →
        fst (generateSandboxQoSResourceSpecOpts (LinuxBlockIO:=L) sb w) =
          Err (emptyClassOutcome (Name r = QoSResourceNet)
                 (dummyPodQoSResources w) ErrUnknownPodResourceType
                 (Name r))))
  ∧ (∀ sb, PodQosResources sb = pre ++ r :: post →
     (∃ e, fst (NoNet.generateSandboxQoSResourceSpecOpts (LinuxBlockIO:=L) sb w)
           = Err e)
     ∧ (fst (NoNet.sandboxQoSLoop pre w) = None →
        fst (NoNet.generateSandboxQoSResourceSpecOpts (LinuxBlockIO:=L) sb w) =
          Err (emptyClassOutcome False
                 (dummyPodQoSResources w) ErrUnknownPodResourceType
                 (Name r)))).
Proof.
  intros Hcls.
  assert (r ∈ pre ++ r :: post) as Hin by (apply elem_of_app; right; left).
  split; [|split].
  - intros cfg sb Hqrs.
    rewrite generateContainerQoSResourceSpecOpts_fst, Hqrs. split.
    + destruct (fst (containerQoSLoop _ w)) as [e|] eqn:Hloop; [by exists e|].
      by destruct (containerQoSLoop_pass_nonempty _ w r Hloop Hin).
    + intros Hpre. rewrite containerQoSLoop_app, containerQoSLoop_cons by done.
      unfold emptyClassOutcome. rewrite Hcls.
      destruct (decide (_ ∨ _)); [by rewrite decide_True|].
      destruct (dummyContainerQoSResources w !! Name r) as [cr|]; [|done].
      destruct (decide ("" ∈ cr)); [by rewrite decide_True|done].
  - intros sb Hqrs.
    rewrite generateSandboxQoSResourceSpecOpts_fst, Hqrs. split.
    + destruct (fst (sandboxQoSLoop _ w)) as [e|] eqn:Hloop; [by exists e|].
      by destruct (sandboxQoSLoop_pass_nonempty _ w r Hloop Hin).
    + intros Hpre. rewrite sandboxQoSLoop_app, sandboxQoSLoop_cons by done.
      unfold emptyClassOutcome. rewrite Hcls.
      destruct (decide (Name r = QoSResourceNet)); [by rewrite decide_True|].
      destruct (dummyPodQoSResources w !! Name r) as [cr|]; [|done].
      destruct (decide ("" ∈ cr)); [by rewrite decide_True|done].
  - intros sb Hqrs.
    rewrite NoNet_generateSandboxQoSResourceSpecOpts_fst, Hqrs. split.
    + destruct (fst (NoNet.sandboxQoSLoop _ w)) as [e|] eqn:Hloop; [by exists e|].
      by destruct (NoNet_sandboxQoSLoop_pass_nonempty _ w r Hloop Hin).
    + intros Hpre.
      rewrite NoNet_sandboxQoSLoop_app, NoNet_sandboxQoSLoop_cons by done.
      unfold emptyClassOutcome. rewrite Hcls.
      destruct (decide False) as [[]|_].
      destruct (dummyPodQoSResources w !! Name r) as [cr|]; [|done].
      destruct (decide ("" ∈ cr)); [by rewrite decide_True|done].
Qed.

Lemma C2_empty_class_is_always_an_error_witness :
  fst (generateContainerQoSResourceSpecOpts (exampleEnv true true false false)
         (exampleContainer [mkQOSResource "dummy-1" "class-a";
                            mkQOSResource "rdt" "";
                            mkQOSResource "blockio" "fast"] ∅)
         (exampleSandbox [] ∅) init)
  = Err (ErrEmptyClass "rdt").
Proof.
  refine (proj2 (proj1 (C2_empty_class_is_always_an_error
            (exampleEnv true true false false) init
            [mkQOSResource "dummy-1" "class-a"]
            [mkQOSResource "blockio" "fast"]
            (mkQOSResource "rdt" "") eq_refl)
          (exampleContainer [mkQOSResource "dummy-1" "class-a";
                             mkQOSResource "rdt" "";
                             mkQOSResource "blockio" "fast"] ∅)
          (exampleSandbox [] ∅) eq_refl) _).
  vm_compute; reflexivity.
Defined.

(** Counterexample to C2 as stated: for a placeholder type the request
    with an empty class is answered with the unknown-class error, on
    containers and on pods alike. *)
Lemma C2_counterexample :
  Class (mkQOSResource "dummy-1" "") = ""
  ∧ fst (generateContainerQoSResourceSpecOpts
           (exampleEnv true true false false)
           (exampleContainer [mkQOSResource "dummy-1" ""] ∅)
           (exampleSandbox [] ∅) init)
    = Err (ErrUnknownClass "dummy-1" "")
  ∧ fst (generateSandboxQoSResourceSpecOpts (LinuxBlockIO:=string)
           (exampleSandbox [mkQOSResource "podres-1" ""] ∅) init)
    = Err (ErrUnknownClass "podres-1" "")
  ∧ fst (NoNet.generateSandboxQoSResourceSpecOpts (LinuxBlockIO:=string)
           (exampleSandbox [mkQOSResource "podres-1" ""] ∅) init)
    = Err (ErrUnknownClass "podres-1" "")
  ∧ Err (A:=list (SpecOpts string)) (ErrUnknownClass "dummy-1" "")
    ≠ Err (ErrEmptyClass "dummy-1").
Proof. repeat split; try (vm_compute; reflexivity). discriminate. Qed.

(** ** The net class catalog *)

Lemma getCniQoSResources_globals {L} (env : Env L) netplugin w :
  globals (snd (getCniQoSResources env netplugin w)) = globals w.
Proof.
  unfold getCniQoSResources. destruct netplugin as [p|]; [|done].
  destruct (bool_decide _); [done|].
  destruct (Networks (GetConfig p) !! 1%nat) as [n|]; [|done]. run.
  by destruct (jsonUnmarshal env _) as [[name qos]|err].
Qed.

(** C5. A rebuild of the net class catalog from a plugin with fewer than two
    configured networks, or whose second network's text does not decode,
    returns an error; whenever [updateCniQoSResources] returns an error the
    stored catalog is the one from before, and when it returns none the
    stored catalog is the whole decoded table. *)
Theorem C5_failed_rebuild_keeps_catalog {L} (env : Env L) (w : World) :
  (∀ netplugin e,
     fst (updateCniQoSResources env netplugin w) = Some e →
     globals (snd (updateCniQoSResources env netplugin w)) = globals w)
  ∧ (∀ p,
     length (Networks (GetConfig p)) < 2 →
     updateCniQoSResources env (Some p) w = (Some ErrNoNetworks, w))
  ∧ (∀ p n e,
     Networks (GetConfig p) !! 1%nat = Some n →
     jsonUnmarshal env (Source (Config n)) = Err e →
     fst (updateCniQoSResources env (Some p) w) = Some (ErrParseCniConfig e)
     ∧ cniQoSResource (snd (updateCniQoSResources env (Some p) w))
       = cniQoSResource w
     ∧ LogFailedToParseCniConfig (Source (Config n))
       ∈ logged (snd (updateCniQoSResources env (Some p) w)))
  ∧ (∀ netplugin,
     fst (updateCniQoSResources env netplugin w) = None →
     ∃ p n name qos,
       netplugin = Some p
       ∧ Networks (GetConfig p) !! 1%nat = Some n
       ∧ jsonUnmarshal env (Source (Config n)) = Ok (name, qos)
       ∧ cniQoSResource (snd (updateCniQoSResources env netplugin w)) = qos).
Proof.
  split; [|split; [|split]].
  - intros netplugin e. unfold updateCniQoSResources, bind.
    pose proof (getCniQoSResources_globals env netplugin w) as Hg.
    by destruct (getCniQoSResources env netplugin w) as [[qos|err] w1].
  - intros p Hlen. unfold updateCniQoSResources, getCniQoSResources, bind.
    by rewrite bool_decide_eq_true_2.
  - intros p n e Hn Hdec.
    unfold updateCniQoSResources, getCniQoSResources, bind.
    rewrite bool_decide_eq_false_2.
    2:{ apply lookup_lt_Some in Hn. lia. }
    rewrite Hn. run. rewrite Hdec. cbn.
    split; [done|split; [done|]]. set_solver.
  - intros netplugin. unfold updateCniQoSResources, getCniQoSResources, bind.
    destruct netplugin as [p|]; [|done].
    destruct (bool_decide _); [done|].
    destruct (Networks (GetConfig p) !! 1%nat) as [n|] eqn:Hn; [|done]. run.
    destruct (jsonUnmarshal env _) as [[name qos]|err] eqn:Hdec; [|done].
    intros _. by exists p, n, name, qos.
Qed.

Lemma C5_failed_rebuild_keeps_catalog_witness :
  updateCniQoSResources (exampleEnv true true false false)
    (Some (examplePlugin ["loopback"]))
    (snd (setCniQoSResource exampleQos init))
  = (Some ErrNoNetworks, snd (setCniQoSResource exampleQos init)).
Proof.
  apply (proj1 (proj2 (C5_failed_rebuild_keeps_catalog
                         (exampleEnv true true false false)
                         (snd (setCniQoSResource exampleQos init))))).
  cbn. lia.
Defined.

(** The decoder's failure on the second network, run. *)
Example rebuild_with_undecodable_second_network :
  fst (updateCniQoSResources (exampleEnv true true false false)
         (Some (examplePlugin ["loopback"; "{qos:"]))
         (snd (setCniQoSResource exampleQos init)))
  = Some (ErrParseCniConfig (ErrExternal "invalid character"))
  ∧ cniQoSResource
      (snd (updateCniQoSResources (exampleEnv true true false false)
              (Some (examplePlugin ["loopback"; "{qos:"]))
              (snd (setCniQoSResource exampleQos init))))
    = exampleQos.
Proof. split; vm_compute; reflexivity. Qed.

Lemma cniQoSLoop_skip pre rest nsOpts w :
  (∀ r', r' ∈ pre → Name r' ≠ QoSResourceNet) →
  cniQoSLoop (pre ++ rest) nsOpts w = cniQoSLoop rest nsOpts w.
Proof.
  induction pre as [|q pre IH]; intros Hpre; [done|].
  rewrite <-app_comm_cons. cbn [cniQoSLoop].
  rewrite decide_False by (apply Hpre; by left).
  apply IH. intros r' Hin. apply Hpre. by right.
Qed.

(** C7 (amended). The ["net"] class of a sandbox is resolved from its first
    ["net"] request alone, by lookup in the net class catalog, whatever the
    annotations are: a class in the catalog whose entry carries bandwidth
    parameters yields exactly one bandwidth namespace option, a class in the
    catalog whose entry carries none yields no option and no error, and a
    class absent from the catalog makes [generateCniQoSResourceOpts] fail
    with the unknown-class error.  The pod-level spec-option generator never
    returns a mutation. *)
Theorem C7_net_class_by_catalog_lookup (w : World) (sb : PodSandboxConfig)
    (pre post : list QOSResource) (r : QOSResource) :
  PodQosResources sb = pre ++ r :: post →
  Name r = QoSResourceNet →
  (∀ r', r' ∈ pre → Name r' ≠ QoSResourceNet) →
  (∀ annotations,
     generateCniQoSResourceOpts
       {| PodQosResources := PodQosResources sb;
          PodAnnotations := annotations |} w =
     (match cniQoSResource w !! Class r with
      | None => Err (ErrUnknownQuotedClass QoSResourceNet (Class r))
      | Some caps =>
          Ok (match BandWidth caps with
              | Some bandWidth => [WithCapabilityBandWidth bandWidth]
              | None => []
              end)
      end, w))
  ∧ (∀ (L : Type) (specOpts : list (SpecOpts L)),
       fst (generateSandboxQoSResourceSpecOpts sb w) = Ok specOpts →
       specOpts = []).
Proof.
  intros Hqrs Hr Hpre. split.
  - intros annotations. unfold generateCniQoSResourceOpts. cbn.
    rewrite Hqrs, cniQoSLoop_skip by done. cbn [cniQoSLoop].
    rewrite decide_True by done. run.
    destruct (cniQoSResource w !! Class r) as [caps|]; [|done].
    by destruct (BandWidth caps).
  - intros L specOpts. rewrite generateSandboxQoSResourceSpecOpts_fst.
    destruct (fst (sandboxQoSLoop _ w)); [done|]. by intros [= <-].
Qed.

Lemma C7_net_class_by_catalog_lookup_witness :
  generateCniQoSResourceOpts
    (exampleSandbox [mkQOSResource "podres-1" "qos-a";
                     mkQOSResource "net" "fast";
                     mkQOSResource "net" "missing"]
                    {[ "net-class" := "counted" ]})
    (snd (setCniQoSResource exampleQos init))
  = (Ok [WithCapabilityBandWidth
           {| IngressRate := 1000; IngressBurst := 100;
              EgressRate := 1000; EgressBurst := 100 |}],
     snd (setCniQoSResource exampleQos init)).
Proof.
  refine (proj1 (C7_net_class_by_catalog_lookup
            (snd (setCniQoSResource exampleQos init))
            (exampleSandbox [mkQOSResource "podres-1" "qos-a";
                             mkQOSResource "net" "fast";
                             mkQOSResource "net" "missing"] ∅)
            [mkQOSResource "podres-1" "qos-a"]
            [mkQOSResource "net" "missing"]
            (mkQOSResource "net" "fast") eq_refl eq_refl _)
          {[ "net-class" := "counted" ]}).
  intros r' Hin. apply list_elem_of_singleton in Hin as ->. discriminate.
Defined.

(** Counterexample to C7 as stated: a class present in the catalog
    without bandwidth parameters yields no namespace option. *)
Lemma C7_counterexample :
  is_Some (cniQoSResource (snd (setCniQoSResource exampleQos init)) !! "counted")
  ∧ fst (generateCniQoSResourceOpts
           (exampleSandbox [mkQOSResource "net" "counted"] ∅)
           (snd (setCniQoSResource exampleQos init)))
    = Ok [].
Proof. split; [|vm_compute; reflexivity]. vm_compute. eauto. Qed.

(** ** The negotiation round-trip *)

(** C8. When the agent's reply changes only the bandwidth setting, to a
    class the catalog knows, the negotiated configuration carries the
    agent's bandwidth and the draft's port mappings, labels and DNS; when
    the reply's bandwidth names a class the catalog does not know, the
    outcome is [NegotiationRejected] under either failure policy, never the
    draft. *)
Theorem C8_negotiation_merges_or_rejects
    (catalog : gmap string CniQoSClass) (policy : Negotiation.FailurePolicy)
    (adjust : Negotiation.NetworkDraftConfig → Negotiation.AdjustedConfig + string)
    (draft : Negotiation.NetworkDraftConfig)
    (reply : Negotiation.AdjustedConfig)
    (setting : Negotiation.BandwidthSetting) :
  adjust draft = inl reply →
  Negotiation.adjustedBandwidth reply = Some setting →
  (is_Some (catalog !! Negotiation.BandwidthClass setting) →
   Negotiation.adjustedPortMappings reply = None →
   Negotiation.adjustedLabels reply = None →
   Negotiation.adjustedDns reply = None →
   Negotiation.negotiate catalog policy adjust (Negotiation.Drafting draft) =
     Negotiation.Negotiated
       (inl {| Negotiation.portMappings := Negotiation.portMappings draft;
               Negotiation.bandwidth := setting;
               Negotiation.labels := Negotiation.labels draft;
               Negotiation.dns := Negotiation.dns draft |}))
  ∧ (catalog !! Negotiation.BandwidthClass setting = None →
     Negotiation.negotiate catalog policy adjust (Negotiation.Drafting draft) =
       Negotiation.Negotiated
         (inr (Negotiation.NegotiationRejected
                 (Negotiation.BandwidthClass setting)))).
Proof.
  intros Hreply Hbw. unfold Negotiation.negotiate, Negotiation.revalidate.
  rewrite Hreply, Hbw. split.
  - intros [caps ->] Hports Hlabels Hdns.
    unfold Negotiation.merge. by rewrite Hbw, Hports, Hlabels, Hdns.
  - by intros ->.
Qed.

Lemma C8_negotiation_merges_or_rejects_witness :
  Negotiation.negotiate exampleQos Negotiation.Abort
    (λ _, inl (exampleReply "fast" "5Mbps")) (Negotiation.Drafting exampleDraft)
  = Negotiation.Negotiated
      (inl {| Negotiation.portMappings := Negotiation.portMappings exampleDraft;
              Negotiation.bandwidth :=
                {| Negotiation.BandwidthClass := "fast";
                   Negotiation.BandwidthLimit := "5Mbps" |};
              Negotiation.labels := Negotiation.labels exampleDraft;
              Negotiation.dns := Negotiation.dns exampleDraft |}).
Proof.
  refine (proj1 (C8_negotiation_merges_or_rejects exampleQos Negotiation.Abort
            (λ _, inl (exampleReply "fast" "5Mbps")) exampleDraft
            (exampleReply "fast" "5Mbps")
            {| Negotiation.BandwidthClass := "fast";
               Negotiation.BandwidthLimit := "5Mbps" |} eq_refl eq_refl)
          _ eq_refl eq_refl eq_refl).
  vm_compute. eauto.
Defined.

(** The rejected reply of the spec's example, run under both policies. *)
Example reply_with_unknown_class_is_rejected :
  ∀ policy,
    Negotiation.negotiate exampleQos policy
      (λ _, inl (exampleReply "platinum" "5Mbps"))
      (Negotiation.Drafting exampleDraft)
    = Negotiation.Negotiated (inr (Negotiation.NegotiationRejected "platinum")).
Proof. intros policy. vm_compute. reflexivity. Qed.

(** * Further properties *)

(** ** Which requests the container-level loop lets through *)

(** X1. The request loop of [generateContainerQoSResourceSpecOpts] passes
    exactly the request lists in which every request has a non-empty class
    and names RDT, block-I/O, or a placeholder type together with one of the
    classes its catalog lists. *)
Theorem containerQoSLoop_passes_iff (qrs : list QOSResource) (w : World) :
  fst (containerQoSLoop qrs w) = None ↔ Forall (acceptedByContainerLoop w) qrs.
Proof.
  induction qrs as [|r rest IH]; [by split|].
  rewrite containerQoSLoop_cons, Forall_cons, <-IH.
  unfold acceptedByContainerLoop.
  destruct (decide (_ ∨ _)) as [Hor|Hor].
  - destruct (decide (Class r = "")) as [Hc|Hc];
      [split; [done|]; by intros [[? _] _]|].
    split; [|by intros [_ ?]]. intros Hrest. split; [|done]. split; [done|].
    destruct Hor; auto.
  - destruct (dummyContainerQoSResources w !! Name r) as [cr|] eqn:Hcr.
    + destruct (decide (Class r ∈ cr)) as [Hin|Hin].
      * destruct (decide (Class r = "")) as [Hc|Hc];
          [split; [done|]; by intros [[? _] _]|].
        split; [|by intros [_ ?]]. intros Hrest. split; [|done]. split; [done|].
        right; right. by exists cr.
      * split; [done|]. intros [[_ [?|[?|(cr' & ? & ?)]]] _]; [tauto|tauto|].
        congruence.
    + split; [done|]. intros [[_ [?|[?|(cr' & ? & ?)]]] _]; [tauto|tauto|].
      congruence.
Qed.

Lemma containerQoSLoop_rejected_first r post w e :
  fst (containerQoSLoop [r] w) = Some e →
  fst (containerQoSLoop (r :: post) w) = Some e.
Proof.
  rewrite !containerQoSLoop_cons. cbn [containerQoSLoop ret fst].
  repeat case_match; done.
Qed.

(** X2. [generateContainerQoSResourceSpecOpts] fails with the error of the
    first request its loop rejects: the requests after it, the annotations,
    the sandbox config and the backends have no part in the result. *)
Theorem generateContainerQoSResourceSpecOpts_first_rejected {L}
    (env env' : Env L) (cfg cfg' : ContainerConfig)
    (sb sb' : PodSandboxConfig) (w : World)
    (pre post post' : list QOSResource) (r : QOSResource) (e : Error) :
  ContainerQosResources cfg = pre ++ r :: post →
  ContainerQosResources cfg' = pre ++ r :: post' →
  fst (containerQoSLoop pre w) = None →
  fst (containerQoSLoop [r] w) = Some e →
  fst (generateContainerQoSResourceSpecOpts env cfg sb w) = Err e
  ∧ fst (generateContainerQoSResourceSpecOpts env' cfg' sb' w) = Err e.
Proof.
  intros Hq Hq' Hpre Hrej.
  rewrite !generateContainerQoSResourceSpecOpts_fst, Hq, Hq'.
  rewrite !containerQoSLoop_app by done.
  by rewrite (containerQoSLoop_rejected_first r post w e),
    (containerQoSLoop_rejected_first r post' w e).
Qed.

Lemma generateContainerQoSResourceSpecOpts_first_rejected_witness :
  fst (generateContainerQoSResourceSpecOpts
         (exampleEnv true true false false)
         (exampleContainer [mkQOSResource "rdt" "gold";
                            mkQOSResource "dummy-2" "iron";
                            mkQOSResource "blockio" ""] ∅)
         (exampleSandbox [] ∅) init)
  = Err (ErrUnknownClass "dummy-2" "iron")
  ∧ fst (generateContainerQoSResourceSpecOpts
           (exampleEnv false false true true)
           (exampleContainer [mkQOSResource "rdt" "gold";
                              mkQOSResource "dummy-2" "iron"]
                             {[ "rdt-class" := "silver" ]})
           (exampleSandbox [] ∅) init)
    = Err (ErrUnknownClass "dummy-2" "iron").
Proof.
  apply (generateContainerQoSResourceSpecOpts_first_rejected
           (exampleEnv true true false false) (exampleEnv false false true true)
           (exampleContainer [mkQOSResource "rdt" "gold";
                              mkQOSResource "dummy-2" "iron";
                              mkQOSResource "blockio" ""] ∅)
           (exampleContainer [mkQOSResource "rdt" "gold";
                              mkQOSResource "dummy-2" "iron"]
                             {[ "rdt-class" := "silver" ]})
           (exampleSandbox [] ∅) (exampleSandbox [] ∅) init
           [mkQOSResource "rdt" "gold"] [mkQOSResource "blockio" ""] []
           (mkQOSResource "dummy-2" "iron") (ErrUnknownClass "dummy-2" "iron")
           eq_refl eq_refl).
  - vm_compute. reflexivity.
  - vm_compute. reflexivity.
Defined.

(** X3. When the loop passes, it logs one line per request for a
    placeholder type, in scan order, nothing for RDT and block-I/O, and
    leaves the package variables alone. *)
Theorem containerQoSLoop_log (qrs : list QOSResource) (w : World) :
  fst (containerQoSLoop qrs w) = None →
  logged (snd (containerQoSLoop qrs w))
    = logged w ++ concat (dummyLogOf <$> qrs)
  ∧ globals (snd (containerQoSLoop qrs w)) = globals w.
Proof.
  intros Hpass. split; [|apply containerQoSLoop_globals].
  revert w Hpass. induction qrs as [|r rest IH]; intros w Hpass.
  { cbn. by rewrite app_nil_r. }
  rewrite containerQoSLoop_cons in Hpass.
  cbn [containerQoSLoop fmap list_fmap concat]. unfold dummyLogOf at 1.
  revert Hpass. run.
  destruct (decide (Name r = QoSResourceRdt)) as [Hr|Hr];
    [|destruct (decide (Name r = QoSResourceBlockio)) as [Hb|Hb]]; cbn.
  1,2: destruct (decide (_ ∨ _)) as [_|Hor]; [|exfalso; apply Hor; auto];
       destruct (decide (Class r = "")); [done|]; intros Hpass;
       by rewrite IH.
  destruct (decide (_ ∨ _)) as [[|]|_]; [done|done|].
  destruct (dummyContainerQoSResources w !! Name r) as [cr|]; cbn; [|done].
  destruct (decide (Class r ∈ cr)); cbn; [|done].
  destruct (decide (Class r = "")); [done|]. intros Hpass.
  rewrite IH.
  - cbn. by rewrite <-app_assoc.
  - rewrite <-Hpass. by apply containerQoSLoop_world.
Qed.

Lemma containerQoSLoop_log_witness :
  logged (snd (containerQoSLoop [mkQOSResource "dummy-1" "class-b";
                                 mkQOSResource "rdt" "gold";
                                 mkQOSResource "dummy-2" "gold"] init))
  = logged init ++ concat (dummyLogOf <$> [mkQOSResource "dummy-1" "class-b";
                                            mkQOSResource "rdt" "gold";
                                            mkQOSResource "dummy-2" "gold"]).
Proof.
  apply (containerQoSLoop_log [mkQOSResource "dummy-1" "class-b";
                               mkQOSResource "rdt" "gold";
                               mkQOSResource "dummy-2" "gold"] init).
  vm_compute. reflexivity.
Defined.

(** ** What a successful run may emit *)

(** X4. A mutation returned by [generateContainerQoSResourceSpecOpts] is
    always backed by its backend: an RDT mutation names the non-empty
    effective class, with empty schemata, and RDT is enabled and knows the
    class; a block-I/O mutation carries the OCI parameters of the non-empty
    effective class of the enabled backend that knows it. *)
Theorem generated_mutations_are_supported {L} (env : Env L)
    (cfg : ContainerConfig) (sb : PodSandboxConfig) (w : World)
    (opts : list (SpecOpts L)) :
  fst (generateContainerQoSResourceSpecOpts env cfg sb w) = Ok opts →
  (∀ cls l3 mb, WithRdt cls l3 mb ∈ opts →
     l3 = "" ∧ mb = "" ∧ cls ≠ ""
     ∧ effectiveClass (rdt env) QoSResourceRdt cfg sb = (cls, None)
     ∧ IsEnabled (rdt env) = true ∧ ClassExists (rdt env) cls = true)
  ∧ (∀ l, WithBlockIO l ∈ opts →
     ∃ cls, cls ≠ ""
       ∧ effectiveClass (blockio env) QoSResourceBlockio cfg sb = (cls, None)
       ∧ IsEnabled (blockio env) = true
       ∧ ClassExists (blockio env) cls = true
       ∧ ClassNameToLinuxOCI env cls = Ok l).
Proof.
  rewrite generateContainerQoSResourceSpecOpts_fst.
  destruct (fst (containerQoSLoop _ w)); [done|].
  destruct (fst (handleRdt env cfg sb [] w)) as [ropts|] eqn:Hr; [|done].
  intros Hb.
  apply handleRdt_Ok in Hr. apply handleBlockio_Ok in Hb.
  destruct Hr as [->|(rc & -> & Hrc)], Hb as [->|(bc & l & -> & Hbc)]; cbn;
    split; intros *; rewrite ?elem_of_cons, ?elem_of_nil;
    try (intros [[=]|[[=]|[]]]); try (intros [[=]|[]]); try (intros []);
    subst; eauto 10.
Qed.

Lemma generated_mutations_are_supported_witness :
  IsEnabled (rdt (exampleEnv true true false false)) = true
  ∧ ClassExists (rdt (exampleEnv true true false false)) "gold" = true.
Proof.
  refine (proj2 (proj2 (proj2 (proj2
            (proj1 (generated_mutations_are_supported
                      (exampleEnv true true false false)
                      (exampleContainer [mkQOSResource "blockio" "fast";
                                         mkQOSResource "rdt" "gold"] ∅)
                      (exampleSandbox [] ∅) init
                      [WithRdt "gold" "" ""; WithBlockIO "fast"] _)
                   "gold" "" "" _))))).
  - vm_compute. reflexivity.
  - left.
Defined.

(** ** Errors of the two steps *)

(** X5. A non-empty effective class on a disabled backend is refused with
    the disabled error, whether or not the backend knows the class; the
    generator returns it wrapped unless the ignore flag of that backend is
    set, in which case it goes on without a mutation for that backend. *)
Theorem disabled_backend_is_refused_or_skipped {L} (env : Env L)
    (cfg : ContainerConfig) (sb : PodSandboxConfig) (w : World) (cls : string) :
  fst (containerQoSLoop (ContainerQosResources cfg) w) = None →
  cls ≠ "" →
  (effectiveClass (rdt env) QoSResourceRdt cfg sb = (cls, None) →
   IsEnabled (rdt env) = false →
   fst (getContainerRdtClass env cfg sb w) =
     (cls, Some (ErrRdtDisabled (MetadataName (Metadata cfg)) cls))
   ∧ fst (generateContainerQoSResourceSpecOpts env cfg sb w) =
       if IgnoreRdtNotEnabledErrors (criConfig env)
       then fst (handleBlockio env cfg sb [] w)
       else Err (ErrFailedToSetRdt
                   (ErrRdtDisabled (MetadataName (Metadata cfg)) cls)))
  ∧ (effectiveClass (blockio env) QoSResourceBlockio cfg sb = (cls, None) →
     IsEnabled (blockio env) = false →
     ∀ specOpts, fst (handleRdt env cfg sb [] w) = Ok specOpts →
     fst (getContainerBlockioClass env cfg sb w) =
       (cls, Some (ErrBlockioDisabled (MetadataName (Metadata cfg)) cls))
     ∧ fst (generateContainerQoSResourceSpecOpts env cfg sb w) =
         if IgnoreBlockIONotEnabledErrors (criConfig env)
         then Ok specOpts
         else Err (ErrFailedToSetBlockio
                     (ErrBlockioDisabled (MetadataName (Metadata cfg)) cls))).
Proof.
  intros Hscan Hne. split.
  - intros Heff Hen.
    assert (fst (getContainerRdtClass env cfg sb w) =
              (cls, Some (ErrRdtDisabled (MetadataName (Metadata cfg)) cls)))
      as Hres by (by rewrite getContainerRdtClass_fst, Heff, decide_False, Hen).
    split; [done|].
    rewrite generateContainerQoSResourceSpecOpts_fst, Hscan, handleRdt_fst, Hres, Hen.
    cbn. by destruct (IgnoreRdtNotEnabledErrors _).
  - intros Heff Hen specOpts Hrdt.
    assert (fst (getContainerBlockioClass env cfg sb w) =
              (cls, Some (ErrBlockioDisabled (MetadataName (Metadata cfg)) cls)))
      as Hres by (by rewrite getContainerBlockioClass_fst, Heff, decide_False, Hen).
    split; [done|].
    rewrite generateContainerQoSResourceSpecOpts_fst, Hscan, Hrdt.
    rewrite handleBlockio_fst, Hres, Hen.
    cbn. by destruct (IgnoreBlockIONotEnabledErrors _).
Qed.

Lemma disabled_backend_is_refused_or_skipped_witness :
  fst (generateContainerQoSResourceSpecOpts (exampleEnv false true false false)
         (exampleContainer [mkQOSResource "rdt" "bronze"] ∅)
         (exampleSandbox [] ∅) init)
  = Err (ErrFailedToSetRdt (ErrRdtDisabled "app" "bronze")).
Proof.
  refine (proj2 (proj1 (disabled_backend_is_refused_or_skipped
            (exampleEnv false true false false)
            (exampleContainer [mkQOSResource "rdt" "bronze"] ∅)
            (exampleSandbox [] ∅) init "bronze" _ _) _ _)).
  - vm_compute. reflexivity.
  - discriminate.
  - vm_compute. reflexivity.
  - reflexivity.
Defined.

(** X6. Without a structured request, an error of the annotation fallback
    is the resolver's error as it is; the generator returns it wrapped,
    except that a disabled backend whose ignore flag is set hides it like
    any other error of the step. *)
Theorem fallback_error_is_passed_on {L} (env : Env L)
    (cfg : ContainerConfig) (sb : PodSandboxConfig) (w : World)
    (cls : string) (e : Error) :
  fst (containerQoSLoop (ContainerQosResources cfg) w) = None →
  requestedClass QoSResourceRdt (ContainerQosResources cfg) = None →
  ContainerClassFromAnnotations (rdt env) (MetadataName (Metadata cfg))
    (ContainerAnnotations cfg) (PodAnnotations sb) = (cls, Some e) →
  fst (getContainerRdtClass env cfg sb w) = (cls, Some e)
  ∧ fst (generateContainerQoSResourceSpecOpts env cfg sb w) =
      if negb (IsEnabled (rdt env)) && IgnoreRdtNotEnabledErrors (criConfig env)
      then fst (handleBlockio env cfg sb [] w)
      else Err (ErrFailedToSetRdt e).
Proof.
  intros Hscan Hreq Hfb.
  assert (fst (getContainerRdtClass env cfg sb w) = (cls, Some e)) as Hres.
  { rewrite getContainerRdtClass_fst. unfold effectiveClass.
    by rewrite Hreq, Hfb. }
  split; [done|].
  rewrite generateContainerQoSResourceSpecOpts_fst, Hscan, handleRdt_fst, Hres.
  by destruct (negb _ && _).
Qed.

Lemma fallback_error_is_passed_on_witness :
  fst (generateContainerQoSResourceSpecOpts
         {| rdt := {| IsEnabled := true;
                      ClassExists := λ _, true;
                      ContainerClassFromAnnotations :=
                        λ _ _ _, ("", Some (ErrExternal "malformed annotation")) |};
            blockio := exampleBackend "blockio-class" true ["fast"; "slow"];
            ClassNameToLinuxOCI := λ cls, Ok cls;
            jsonUnmarshal := exampleUnmarshal;
            containerName := "containerd";
            criConfig := {| IgnoreRdtNotEnabledErrors := true;
                            IgnoreBlockIONotEnabledErrors := true |} |}
         (exampleContainer [mkQOSResource "blockio" "fast"] ∅)
         (exampleSandbox [] ∅) init)
  = Err (ErrFailedToSetRdt (ErrExternal "malformed annotation")).
Proof.
  refine (proj2 (fallback_error_is_passed_on _
            (exampleContainer [mkQOSResource "blockio" "fast"] ∅)
            (exampleSandbox [] ∅) init "" (ErrExternal "malformed annotation")
            _ _ _)).
  - vm_compute. reflexivity.
  - vm_compute. reflexivity.
  - reflexivity.
Defined.

(** X7. When the block-I/O class passes the backend's checks but does not
    convert to OCI parameters, the generator returns the conversion error
    as it is, and with it none of the mutations gathered so far. *)
Theorem conversion_error_drops_all_mutations {L} (env : Env L)
    (cfg : ContainerConfig) (sb : PodSandboxConfig) (w : World)
    (cls : string) (e : Error) (specOpts : list (SpecOpts L)) :
  fst (containerQoSLoop (ContainerQosResources cfg) w) = None →
  fst (handleRdt env cfg sb [] w) = Ok specOpts →
  fst (getContainerBlockioClass env cfg sb w) = (cls, None) →
  cls ≠ "" →
  ClassNameToLinuxOCI env cls = Err e →
  fst (generateContainerQoSResourceSpecOpts env cfg sb w) = Err e.
Proof.
  intros Hscan Hrdt Hbio Hne Hoci.
  rewrite generateContainerQoSResourceSpecOpts_fst, Hscan, Hrdt.
  by rewrite handleBlockio_fst, Hbio, decide_False, Hoci.
Qed.

Lemma conversion_error_drops_all_mutations_witness :
  fst (generateContainerQoSResourceSpecOpts
         {| rdt := exampleBackend "rdt-class" true ["gold"; "silver"];
            blockio := exampleBackend "blockio-class" true ["fast"; "slow"];
            ClassNameToLinuxOCI :=
              λ cls, if decide (cls = "fast") then Ok cls
                     else Err (ErrExternal "no OCI parameters");
            jsonUnmarshal := exampleUnmarshal;
            containerName := "containerd";
            criConfig := {| IgnoreRdtNotEnabledErrors := false;
                            IgnoreBlockIONotEnabledErrors := false |} |}
         (exampleContainer [mkQOSResource "rdt" "gold";
                            mkQOSResource "blockio" "slow"] ∅)
         (exampleSandbox [] ∅) init)
  = Err (ErrExternal "no OCI parameters").
Proof.
  apply (conversion_error_drops_all_mutations _
           (exampleContainer [mkQOSResource "rdt" "gold";
                              mkQOSResource "blockio" "slow"] ∅)
           (exampleSandbox [] ∅) init "slow" (ErrExternal "no OCI parameters")
           [WithRdt "gold" "" ""]).
  - vm_compute. reflexivity.
  - vm_compute. reflexivity.
  - vm_compute. reflexivity.
  - discriminate.
  - reflexivity.
Defined.

(** ** The placeholder catalogs and what is advertised *)

Lemma classNames_fold (l : list QOSResourceClassInfo) (acc : gset string) :
  foldl (λ classes c, {[ClassInfoName c]} ∪ classes) acc l
  = list_to_set (ClassInfoName <$> l) ∪ acc.
Proof.
  revert acc. induction l as [|c l IH]; intros acc; cbn.
  - by rewrite (left_id_L ∅ (∪)).
  - rewrite IH. apply set_eq. intros x.
    rewrite !elem_of_union, !elem_of_singleton. tauto.
Qed.

Lemma dummuGen_snoc infos info :
  dummuGen (infos ++ [info])
  = <[InfoName info := classNames info]> (dummuGen infos).
Proof.
  unfold dummuGen. rewrite foldl_app. cbn. f_equal.
  unfold classNames. by rewrite classNames_fold, (right_id_L ∅ (∪)).
Qed.

Lemma dummuGen_lookup_last (infos : list QOSResourceInfo) (name : string) :
  dummuGen infos !! name
  = classNames <$> last (filter (λ info, InfoName info = name) infos).
Proof.
  induction infos as [|info infos IH] using rev_ind; [done|].
  rewrite dummuGen_snoc, filter_app, filter_cons, filter_nil.
  destruct (decide (InfoName info = name)) as [<-|Hne].
  - by rewrite lookup_insert_eq, last_snoc.
  - by rewrite lookup_insert_ne, app_nil_r.
Qed.

Lemma filter_none {A} (P : A → Prop) `{!∀ x, Decision (P x)} (l : list A) :
  (∀ x, x ∈ l → ¬ P x) → filter P l = [].
Proof.
  induction l as [|a l IH]; intros Hall; [done|].
  rewrite filter_cons, decide_False by (apply Hall; by left).
  apply IH. intros x Hin. apply Hall. by right.
Qed.

Lemma last_filter_name_NoDup infos info :
  NoDup (InfoName <$> infos) → info ∈ infos →
  last (filter (λ i, InfoName i = InfoName info) infos) = Some info.
Proof.
  induction infos as [|i infos IH]; intros Hnd Hin;
    [by apply elem_of_nil in Hin|].
  rewrite fmap_cons in Hnd. apply NoDup_cons in Hnd as [Hni Hnd].
  rewrite filter_cons. apply elem_of_cons in Hin as [<-|Hin].
  - rewrite decide_True by done. rewrite filter_none; [done|].
    intros x Hx Heq. apply Hni. rewrite <-Heq.
    apply list_elem_of_fmap. by exists x.
  - rewrite decide_False; [by apply IH|].
    intros Heq. apply Hni. rewrite Heq.
    apply list_elem_of_fmap. by exists info.
Qed.

Lemma advertises_app infos1 infos2 name class :
  advertises (infos1 ++ infos2) name class
  ↔ advertises infos1 name class ∨ advertises infos2 name class.
Proof.
  unfold advertises. split.
  - intros (info & ci & [Hin|Hin]%elem_of_app & H); [left|right]; by exists info, ci.
  - intros [(info & ci & Hin & H)|(info & ci & Hin & H)]; exists info, ci;
      (split; [apply elem_of_app; auto|done]).
Qed.

Lemma advertises_nil name class : ¬ advertises [] name class.
Proof. by intros (info & ci & Hin%elem_of_nil & _). Qed.

Lemma advertises_singleton info name class :
  advertises [info] name class
  ↔ InfoName info = name ∧ class ∈ ClassInfoName <$> InfoClasses info.
Proof.
  unfold advertises. rewrite list_elem_of_fmap. split.
  - intros (info' & ci & ->%list_elem_of_singleton & Hn & Hin & Hc).
    split; [done|]. by exists ci.
  - intros (Hn & ci & Hc & Hin). exists info, ci.
    split; [by apply list_elem_of_singleton|done].
Qed.

Lemma createClassInfos_names (names : list string) :
  ClassInfoName <$> createClassInfos names = names.
Proof.
  unfold createClassInfos. rewrite fmap_imap.
  apply list_eq. intros i. rewrite list_lookup_imap.
  by destruct (names !! i).
Qed.

Lemma GetContainerQoSResourcesInfo_fst rdtClasses blockioClasses w :
  fst (GetContainerQoSResourcesInfo rdtClasses blockioClasses w) =
    (if bool_decide (0 < length rdtClasses)
     then [ {| InfoName := QoSResourceRdt; InfoMutable := false;
               InfoClasses := createClassInfos rdtClasses |} ]
     else [])
    ++ (if bool_decide (0 < length blockioClasses)
        then [ {| InfoName := QoSResourceBlockio; InfoMutable := false;
                  InfoClasses := createClassInfos blockioClasses |} ]
        else [])
    ++ dummyContainerQoSResourcesInfo w.
Proof.
  unfold GetContainerQoSResourcesInfo. run.
  destruct (bool_decide (0 < length rdtClasses)),
           (bool_decide (0 < length blockioClasses)); cbn; by rewrite <-?app_assoc.
Qed.

Lemma dummuGen_advertises infos name class :
  NoDup (InfoName <$> infos) →
  (∃ cr, dummuGen infos !! name = Some cr ∧ class ∈ cr)
  ↔ advertises infos name class.
Proof.
  intros Hnodup. setoid_rewrite dummuGen_lookup_last. unfold advertises. split.
  - intros (cr & (info & Hlast & ->)%fmap_Some & Hin).
    apply last_Some_elem_of, list_elem_of_filter in Hlast as [Hn Hinfo].
    unfold classNames in Hin.
    apply elem_of_list_to_set, list_elem_of_fmap in Hin as (ci & -> & Hci).
    by exists info, ci.
  - intros (info & ci & Hinfo & <- & Hci & Hc).
    rewrite last_filter_name_NoDup by done.
    exists (classNames info). split; [done|].
    unfold classNames. apply elem_of_list_to_set, list_elem_of_fmap.
    by exists ci.
Qed.

(** X8. The catalog [dummuGen] builds knows exactly the type names of the
    infos it is given; under a name it holds the class names of the last
    info of that name (a later info replaces an earlier one of the same
    name), so every class it accepts is a class of some info of that name,
    and with distinct names it holds the class names of each info. *)
Theorem dummuGen_lookup (infos : list QOSResourceInfo) (name : string) :
  dummuGen infos !! name
    = classNames <$> last (filter (λ info, InfoName info = name) infos)
  ∧ (dummuGen infos !! name = None ↔ name ∉ InfoName <$> infos)
  ∧ (∀ cr class, dummuGen infos !! name = Some cr → class ∈ cr →
                 advertises infos name class)
  ∧ (NoDup (InfoName <$> infos) →
     ∀ info, info ∈ infos →
             dummuGen infos !! InfoName info = Some (classNames info)).
Proof.
  split_and!.
  - apply dummuGen_lookup_last.
  - rewrite dummuGen_lookup_last, fmap_None, last_None. split.
    + intros Hnil (info & -> & Hin)%list_elem_of_fmap.
      assert (info ∈ filter (λ i, InfoName i = InfoName info) infos) as Hf
        by (by apply list_elem_of_filter).
      rewrite Hnil in Hf. by apply elem_of_nil in Hf.
    + intros Hnot. apply filter_none. intros info Hin Hn. apply Hnot.
      apply list_elem_of_fmap. by exists info.
  - intros cr class. rewrite dummuGen_lookup_last.
    intros (info & Hlast & ->)%fmap_Some Hin.
    apply last_Some_elem_of, list_elem_of_filter in Hlast as [Hn Hinfo].
    unfold classNames in Hin.
    apply elem_of_list_to_set, list_elem_of_fmap in Hin as (ci & -> & Hci).
    by exists info, ci.
  - intros Hnodup info Hin.
    by rewrite dummuGen_lookup_last, last_filter_name_NoDup.
Qed.

(** X9. In a world whose container-level placeholder catalog is the one
    [dummuGen] builds from the placeholder infos, whose names are distinct,
    [GetContainerQoSResourcesInfo] and the request loop agree on every type
    other than RDT and block-I/O: a request is let through exactly when its
    class is not empty and is advertised for its type. *)
Theorem advertised_placeholders_are_accepted (w : World)
    (rdtClasses blockioClasses : list string) (r : QOSResource) :
  dummyContainerQoSResources w = dummuGen (dummyContainerQoSResourcesInfo w) →
  NoDup (InfoName <$> dummyContainerQoSResourcesInfo w) →
  Name r ≠ QoSResourceRdt → Name r ≠ QoSResourceBlockio →
  acceptedByContainerLoop w r
  ↔ Class r ≠ ""
    ∧ advertises (fst (GetContainerQoSResourcesInfo rdtClasses blockioClasses w))
        (Name r) (Class r).
Proof.
  intros Hgen Hnodup Hr Hb.
  rewrite GetContainerQoSResourcesInfo_fst, !advertises_app.
  unfold acceptedByContainerLoop.
  rewrite Hgen, (dummuGen_advertises _ _ _ Hnodup). split.
  - intros [Hc [?|[?|Hadv]]]; [done|done|]. split; [done|]. by repeat right.
  - intros [Hc [Hadv|[Hadv|Hadv]]].
    + exfalso. destruct (bool_decide _); [|by apply advertises_nil in Hadv].
      apply advertises_singleton in Hadv as [Hn _]. by apply Hr.
    + exfalso. destruct (bool_decide _); [|by apply advertises_nil in Hadv].
      apply advertises_singleton in Hadv as [Hn _]. by apply Hb.
    + split; [done|]. by repeat right.
Qed.

Lemma advertised_placeholders_are_accepted_witness :
  acceptedByContainerLoop init (mkQOSResource "dummy-2" "silver")
  ↔ Class (mkQOSResource "dummy-2" "silver") ≠ ""
    ∧ advertises (fst (GetContainerQoSResourcesInfo ["gold"] [] init))
        "dummy-2" "silver".
Proof.
  apply (advertised_placeholders_are_accepted init ["gold"] []
           (mkQOSResource "dummy-2" "silver")).
  - reflexivity.
  - apply (bool_decide_unpack _). vm_compute. exact I.
  - discriminate.
  - discriminate.
Defined.

(** X10. [GetContainerQoSResourcesInfo] advertises for RDT (likewise for
    block-I/O) exactly the classes the backend lists, and returns no RDT
    entry at all when it lists none: the names of the entries returned are
    RDT's if the backend lists a class, block-I/O's if its backend does, and
    the placeholder names, in this order.  The capacity given to a class is
    the position of the class in the backend's list; the world is left as
    it was. *)
Theorem GetContainerQoSResourcesInfo_backend_classes (w : World)
    (rdtClasses blockioClasses : list string) :
  (∀ info, info ∈ dummyContainerQoSResourcesInfo w →
           InfoName info ≠ QoSResourceRdt ∧ InfoName info ≠ QoSResourceBlockio) →
  (∀ class,
     advertises (fst (GetContainerQoSResourcesInfo rdtClasses blockioClasses w))
       QoSResourceRdt class ↔ class ∈ rdtClasses)
  ∧ (∀ class,
     advertises (fst (GetContainerQoSResourcesInfo rdtClasses blockioClasses w))
       QoSResourceBlockio class ↔ class ∈ blockioClasses)
  ∧ (∀ i info classInfo,
       fst (GetContainerQoSResourcesInfo rdtClasses blockioClasses w) !! 0%nat
         = Some info →
       InfoName info = QoSResourceRdt →
       InfoClasses info !! i = Some classInfo →
       rdtClasses !! i = Some (ClassInfoName classInfo)
       ∧ ClassInfoCapacity classInfo = N.of_nat i)
  ∧ snd (GetContainerQoSResourcesInfo rdtClasses blockioClasses w) = w
  ∧ InfoName <$> fst (GetContainerQoSResourcesInfo rdtClasses blockioClasses w)
    = match rdtClasses with [] => [] | _ :: _ => [QoSResourceRdt] end
      ++ match blockioClasses with [] => [] | _ :: _ => [QoSResourceBlockio] end
      ++ (InfoName <$> dummyContainerQoSResourcesInfo w)
  ∧ (rdtClasses = [] →
     ∀ info,
       info ∈ fst (GetContainerQoSResourcesInfo rdtClasses blockioClasses w) →
       InfoName info ≠ QoSResourceRdt)
  ∧ (blockioClasses = [] →
     ∀ info,
       info ∈ fst (GetContainerQoSResourcesInfo rdtClasses blockioClasses w) →
       InfoName info ≠ QoSResourceBlockio).
Proof.
  intros Hdummy.
  assert (InfoName <$> fst (GetContainerQoSResourcesInfo rdtClasses
                              blockioClasses w)
          = match rdtClasses with [] => [] | _ :: _ => [QoSResourceRdt] end
            ++ match blockioClasses with
               | [] => [] | _ :: _ => [QoSResourceBlockio] end
            ++ (InfoName <$> dummyContainerQoSResourcesInfo w)) as Hnames.
  { rewrite GetContainerQoSResourcesInfo_fst, !fmap_app.
    destruct rdtClasses, blockioClasses; cbn [length];
      rewrite ?(bool_decide_eq_false_2 (0 < 0)) by lia;
      rewrite ?(bool_decide_eq_true_2 (0 < S _)) by lia; done. }
  assert (∀ name, (name = QoSResourceRdt ∨ name = QoSResourceBlockio) →
            name ∉ InfoName <$> dummyContainerQoSResourcesInfo w) as Hnotin.
  { intros name Hn (info & -> & Hin)%list_elem_of_fmap.
    destruct (Hdummy info Hin). destruct Hn; congruence. }
  assert (∀ name class, (name = QoSResourceRdt ∨ name = QoSResourceBlockio) →
            ¬ advertises (dummyContainerQoSResourcesInfo w) name class) as Hnot.
  { intros name class Hn (info & ci & Hin & Heq & _).
    destruct (Hdummy info Hin) as [H1 H2]. destruct Hn; congruence. }
  assert (∀ (l : list string) class,
            advertises (if bool_decide (0 < length l)
                        then [ {| InfoName := QoSResourceRdt; InfoMutable := false;
                                  InfoClasses := createClassInfos l |} ]
                        else []) QoSResourceRdt class ↔ class ∈ l) as Hrdt.
  { intros l class. destruct l as [|c l].
    - cbn. split; [by intros ?%advertises_nil|by intros ?%elem_of_nil].
    - rewrite bool_decide_eq_true_2 by (cbn; lia).
      rewrite advertises_singleton. cbn [InfoName InfoClasses].
      rewrite createClassInfos_names. tauto. }
  assert (∀ (l : list string) class,
            advertises (if bool_decide (0 < length l)
                        then [ {| InfoName := QoSResourceBlockio; InfoMutable := false;
                                  InfoClasses := createClassInfos l |} ]
                        else []) QoSResourceBlockio class ↔ class ∈ l) as Hbio.
  { intros l class. destruct l as [|c l].
    - cbn. split; [by intros ?%advertises_nil|by intros ?%elem_of_nil].
    - rewrite bool_decide_eq_true_2 by (cbn; lia).
      rewrite advertises_singleton. cbn [InfoName InfoClasses].
      rewrite createClassInfos_names. tauto. }
  split; [|split; [|split; [|split; [|split; [|split]]]]].
  - intros class. rewrite GetContainerQoSResourcesInfo_fst, !advertises_app, Hrdt.
    split; [|auto]. intros [?|[Hadv|Hadv]]; [done| |].
    + destruct (bool_decide _); [|by apply advertises_nil in Hadv].
      by apply advertises_singleton in Hadv as [[=] _].
    + destruct (Hnot QoSResourceRdt class); auto.
  - intros class. rewrite GetContainerQoSResourcesInfo_fst, !advertises_app, Hbio.
    split; [|auto]. intros [Hadv|[?|Hadv]]; [|done|].
    + destruct (bool_decide _); [|by apply advertises_nil in Hadv].
      by apply advertises_singleton in Hadv as [[=] _].
    + destruct (Hnot QoSResourceBlockio class); auto.
  - intros i info ci. rewrite GetContainerQoSResourcesInfo_fst.
    destruct (bool_decide (0 < length rdtClasses)); cbn.
    + intros [= <-] _. cbn. unfold createClassInfos.
      rewrite list_lookup_imap. destruct (rdtClasses !! i); [|done].
      by intros [= <-].
    + destruct (bool_decide (0 < length blockioClasses)); cbn.
      * by intros [= <-] [=].
      * intros Hlook Hn. apply list_elem_of_lookup_2 in Hlook.
        by destruct (Hdummy info Hlook).
  - done.
  - exact Hnames.
  - intros -> info Hin Hn.
    assert (QoSResourceRdt ∈ InfoName <$>
              fst (GetContainerQoSResourcesInfo [] blockioClasses w)) as Hmem
      by (apply list_elem_of_fmap; by exists info).
    rewrite Hnames in Hmem. cbn [app] in Hmem.
    apply elem_of_app in Hmem as [Hmem|Hmem].
    + destruct blockioClasses; [by apply elem_of_nil in Hmem|].
      by apply list_elem_of_singleton in Hmem.
    + by apply (Hnotin QoSResourceRdt); [left|].
  - intros -> info Hin Hn.
    assert (QoSResourceBlockio ∈ InfoName <$>
              fst (GetContainerQoSResourcesInfo rdtClasses [] w)) as Hmem
      by (apply list_elem_of_fmap; by exists info).
    rewrite Hnames in Hmem. cbn [app] in Hmem.
    apply elem_of_app in Hmem as [Hmem|Hmem].
    + destruct rdtClasses; [by apply elem_of_nil in Hmem|].
      by apply list_elem_of_singleton in Hmem.
    + by apply (Hnotin QoSResourceBlockio); [right|].
Qed.

Lemma GetContainerQoSResourcesInfo_backend_classes_witness :
  advertises (fst (GetContainerQoSResourcesInfo ["gold"; "silver"] [] init))
    QoSResourceRdt "silver" ↔ "silver" ∈ ["gold"; "silver"].
Proof.
  refine (proj1 (GetContainerQoSResourcesInfo_backend_classes init
                   ["gold"; "silver"] [] _) "silver").
  intros info Hin. cbn in Hin.
  apply elem_of_cons in Hin as [->|Hin]; [split; discriminate|].
  apply list_elem_of_singleton in Hin as ->. split; discriminate.
Defined.

(** ** The net class catalog, advertised and looked up *)

Lemma GetPodQoSResourcesInfo_is_a_run (w : World) :
  GetPodQoSResourcesInfo_returns w (fst (GetPodQoSResourcesInfo w)).
Proof. by exists (map_to_list (cniQoSResource w)). Qed.

Lemma podQoSResourcesInfo_fst entries w :
  fst (podQoSResourcesInfo entries w) =
    (if bool_decide (0 < size (cniQoSResource w))
     then [ {| InfoName := QoSResourceNet; InfoMutable := false;
               InfoClasses :=
                 (λ nc, {| ClassInfoName := fst nc;
                           ClassInfoCapacity := Capacity (snd nc) |})
                   <$> entries |} ]
     else [])
    ++ dummyPodQoSResourcesInfo w.
Proof. unfold podQoSResourcesInfo. run. by destruct (bool_decide _). Qed.

Lemma generateCniQoSResourceOpts_first_net sb w pre post r :
  PodQosResources sb = pre ++ r :: post →
  Name r = QoSResourceNet →
  (∀ r', r' ∈ pre → Name r' ≠ QoSResourceNet) →
  generateCniQoSResourceOpts sb w =
    (match cniQoSResource w !! Class r with
     | None => Err (ErrUnknownQuotedClass QoSResourceNet (Class r))
     | Some caps =>
         Ok (match BandWidth caps with
             | Some bandWidth => [WithCapabilityBandWidth bandWidth]
             | None => []
             end)
     end, w).
Proof.
  intros Hqrs Hr Hpre. unfold generateCniQoSResourceOpts.
  rewrite Hqrs, cniQoSLoop_skip by done. cbn [cniQoSLoop].
  rewrite decide_True by done. run.
  destruct (cniQoSResource w !! Class r) as [caps|]; [|done].
  by destruct (BandWidth caps).
Qed.

(** X11. Whatever order a call of [GetPodQoSResourcesInfo] visits the net
    class catalog in, the classes it advertises for ["net"] are exactly the
    keys of the catalog, each with the capacity of its entry, and exactly
    the classes for which a ["net"] request gets through
    [generateCniQoSResourceOpts]; with an empty catalog no ["net"] entry is
    advertised.  (No placeholder type is called ["net"].) *)
Theorem net_classes_advertised_iff_resolved (w : World)
    (info : list QOSResourceInfo) :
  GetPodQoSResourcesInfo_returns w info →
  (∀ i, i ∈ dummyPodQoSResourcesInfo w → InfoName i ≠ QoSResourceNet) →
  (∀ class, advertises info QoSResourceNet class
            ↔ is_Some (cniQoSResource w !! class))
  ∧ (∀ class annotations,
       is_Some (cniQoSResource w !! class)
       ↔ ∃ nsOpts,
           fst (generateCniQoSResourceOpts
                  {| PodQosResources := [mkQOSResource QoSResourceNet class];
                     PodAnnotations := annotations |} w) = Ok nsOpts)
  ∧ (∀ i classInfo,
       i ∈ info → InfoName i = QoSResourceNet → classInfo ∈ InfoClasses i →
       ∃ caps, cniQoSResource w !! ClassInfoName classInfo = Some caps
               ∧ ClassInfoCapacity classInfo = Capacity caps)
  ∧ (cniQoSResource w = ∅ → info = dummyPodQoSResourcesInfo w).
Proof.
  intros (entries & Hperm & ->) Hdummy.
  rewrite podQoSResourcesInfo_fst.
  assert (∀ n c, (n, c) ∈ entries ↔ cniQoSResource w !! n = Some c) as Hent.
  { intros n c. by rewrite Hperm, elem_of_map_to_list. }
  assert (¬ (0 < size (cniQoSResource w)) → cniQoSResource w = ∅) as Hempty.
  { intros Hs. apply map_size_empty_iff. lia. }
  split; [|split; [|split]].
  - intros class. rewrite advertises_app. split.
    + intros [Hadv|(i & ci & Hin & Hn & _)]; [|by destruct (Hdummy i Hin)].
      destruct (bool_decide _); [|by apply advertises_nil in Hadv].
      apply advertises_singleton in Hadv as [_ Hin]. cbn in Hin.
      rewrite <-list_fmap_compose in Hin.
      apply list_elem_of_fmap in Hin as ([n c] & -> & Hin).
      apply Hent in Hin. by exists c.
    + intros [c Hc]. left. case_bool_decide as Hs.
      * apply advertises_singleton. split; [done|]. cbn.
        rewrite <-list_fmap_compose. apply list_elem_of_fmap.
        exists (class, c). split; [done|]. by apply Hent.
      * rewrite (Hempty Hs) in Hc. by rewrite lookup_empty in Hc.
  - intros class annotations.
    rewrite (generateCniQoSResourceOpts_first_net _ w []
               [] (mkQOSResource QoSResourceNet class));
      [|done|done|by intros ? ?%elem_of_nil].
    cbn. destruct (cniQoSResource w !! class) as [caps|].
    + split; [by eexists|by eexists].
    + split; [by intros [? ?]|by intros [? ?]].
  - intros i ci Hin Hn Hci.
    apply elem_of_app in Hin as [Hin|Hin]; [|by destruct (Hdummy i Hin)].
    destruct (bool_decide _); [|by apply elem_of_nil in Hin].
    apply list_elem_of_singleton in Hin as ->. cbn in Hci.
    apply list_elem_of_fmap in Hci as ([n c] & -> & Hnc).
    apply Hent in Hnc. by exists c.
  - intros ->. by rewrite map_size_empty, bool_decide_eq_false_2 by lia.
Qed.

Lemma net_classes_advertised_iff_resolved_witness :
  advertises
    (fst (GetPodQoSResourcesInfo (snd (setCniQoSResource exampleQos init))))
    QoSResourceNet "counted"
  ↔ is_Some (cniQoSResource (snd (setCniQoSResource exampleQos init))
               !! "counted").
Proof.
  refine (proj1 (net_classes_advertised_iff_resolved
                   (snd (setCniQoSResource exampleQos init)) _ _ _) "counted").
  - apply GetPodQoSResourcesInfo_is_a_run.
  - intros i Hin. cbn in Hin.
    apply elem_of_cons in Hin as [->|Hin]; [discriminate|].
    apply list_elem_of_singleton in Hin as ->. discriminate.
Defined.

(** X12. After a rebuild that decoded the second network's text to a
    class table, a sandbox's first ["net"] request is resolved against that
    table and nothing else: classes of the catalog from before the rebuild
    that the new table does not list are unknown. *)
Theorem rebuilt_catalog_resolves_net_requests {L} (env : Env L) (w : World)
    (p : CNI) (n : ConfNetwork) (name : string) (qos : gmap string CniQoSClass)
    (sb : PodSandboxConfig) (pre post : list QOSResource) (r : QOSResource) :
  Networks (GetConfig p) !! 1%nat = Some n →
  jsonUnmarshal env (Source (Config n)) = Ok (name, qos) →
  PodQosResources sb = pre ++ r :: post →
  Name r = QoSResourceNet →
  (∀ r', r' ∈ pre → Name r' ≠ QoSResourceNet) →
  fst (updateCniQoSResources env (Some p) w) = None
  ∧ fst (generateCniQoSResourceOpts sb
           (snd (updateCniQoSResources env (Some p) w))) =
      match qos !! Class r with
      | None => Err (ErrUnknownQuotedClass QoSResourceNet (Class r))
      | Some caps =>
          Ok (match BandWidth caps with
              | Some bandWidth => [WithCapabilityBandWidth bandWidth]
              | None => []
              end)
      end.
Proof.
  intros Hn Hdec Hqrs Hr Hpre.
  rewrite (generateCniQoSResourceOpts_first_net sb _ pre post r) by done.
  unfold updateCniQoSResources, getCniQoSResources, bind.
  rewrite bool_decide_eq_false_2.
  2:{ apply lookup_lt_Some in Hn. lia. }
  rewrite Hn. run. by rewrite Hdec.
Qed.

Lemma rebuilt_catalog_resolves_net_requests_witness :
  fst (generateCniQoSResourceOpts
         (exampleSandbox [mkQOSResource "net" "old"] ∅)
         (snd (updateCniQoSResources (exampleEnv true true false false)
                 (Some (examplePlugin ["loopback"; "qos-conf"]))
                 (snd (setCniQoSResource
                         {[ "old" := {| Capacity := 1; BandWidth := None |} ]}
                         init)))))
  = Err (ErrUnknownQuotedClass QoSResourceNet "old").
Proof.
  refine (proj2 (rebuilt_catalog_resolves_net_requests
            (exampleEnv true true false false)
            (snd (setCniQoSResource
                    {[ "old" := {| Capacity := 1; BandWidth := None |} ]} init))
            (examplePlugin ["loopback"; "qos-conf"])
            {| Config := {| Source := "qos-conf" |} |} "qos" exampleQos
            (exampleSandbox [mkQOSResource "net" "old"] ∅)
            [] [] (mkQOSResource "net" "old") eq_refl eq_refl eq_refl eq_refl _)).
  intros r' Hin. exfalso. inversion Hin.
Defined.

(** X13. [getCniQoSResources] reads the second configured network and no
    other: two plugins that agree on it (or both lack it) give the same
    result, the same log lines and the same catalog after
    [updateCniQoSResources]. *)
Theorem getCniQoSResources_second_network_only {L} (env : Env L) (w : World)
    (p p' : CNI) :
  Networks (GetConfig p) !! 1%nat = Networks (GetConfig p') !! 1%nat →
  getCniQoSResources env (Some p) w = getCniQoSResources env (Some p') w
  ∧ updateCniQoSResources env (Some p) w = updateCniQoSResources env (Some p') w.
Proof.
  intros Heq.
  assert (getCniQoSResources env (Some p) w = getCniQoSResources env (Some p') w)
    as Hget.
  { unfold getCniQoSResources. rewrite <-Heq.
    destruct (Networks (GetConfig p) !! 1%nat) as [n|] eqn:Hn.
    - rewrite !bool_decide_eq_false_2; [done| |].
      + symmetry in Heq. apply lookup_lt_Some in Heq. lia.
      + apply lookup_lt_Some in Hn. lia.
    - rewrite !bool_decide_eq_true_2; [done| |].
      + symmetry in Heq. apply lookup_ge_None in Heq. lia.
      + apply lookup_ge_None in Hn. lia. }
  split; [done|]. unfold updateCniQoSResources, bind. by rewrite Hget.
Qed.

Lemma getCniQoSResources_second_network_only_witness :
  updateCniQoSResources (exampleEnv true true false false)
    (Some (examplePlugin ["loopback"; "qos-conf"])) init
  = updateCniQoSResources (exampleEnv true true false false)
      (Some (examplePlugin ["{"; "qos-conf"; "}"])) init.
Proof.
  apply (getCniQoSResources_second_network_only
           (exampleEnv true true false false) init
           (examplePlugin ["loopback"; "qos-conf"])
           (examplePlugin ["{"; "qos-conf"; "}"])).
  reflexivity.
Defined.

(** ** The older text of the generators *)

Lemma Upstream_containerQoSLoop_eq qrs w :
  dummyContainerQoSResources w = ∅ →
  Upstream.containerQoSLoop qrs w = containerQoSLoop qrs w.
Proof.
  intros Hd. induction qrs as [|r rest IH]; [done|].
  cbn [Upstream.containerQoSLoop containerQoSLoop]. run.
  destruct (decide (Name r = QoSResourceRdt));
    [|destruct (decide (Name r = QoSResourceBlockio))]; cbn.
  1,2: by destruct (decide (Class r = "")).
  by rewrite Hd, lookup_empty.
Qed.

Lemma Upstream_sandboxQoSLoop_eq qrs w :
  dummyPodQoSResources w = ∅ →
  Upstream.sandboxQoSLoop qrs w = NoNet.sandboxQoSLoop qrs w.
Proof.
  intros Hd. destruct qrs as [|r rest]; [done|].
  cbn [Upstream.sandboxQoSLoop NoNet.sandboxQoSLoop]. run.
  by rewrite Hd, lookup_empty.
Qed.

(** X14. The generators from before the placeholder resources are the
    later ones run with empty placeholder catalogs: same result, same log.
    Their pod-level generator therefore accepts the empty request list only,
    and answers any other with the unknown-type error of the first request,
    whatever its class. *)
Theorem Upstream_is_the_empty_catalog_case {L} (env : Env L)
    (cfg : ContainerConfig) (sb : PodSandboxConfig) (w : World) :
  (dummyContainerQoSResources w = ∅ →
   Upstream.generateContainerQoSResourceSpecOpts env cfg sb w
   = generateContainerQoSResourceSpecOpts env cfg sb w)
  ∧ (dummyPodQoSResources w = ∅ →
     Upstream.generateSandboxQoSResourceSpecOpts (LinuxBlockIO:=L) sb w
     = NoNet.generateSandboxQoSResourceSpecOpts sb w)
  ∧ Upstream.generateSandboxQoSResourceSpecOpts (LinuxBlockIO:=L) sb w
    = (match PodQosResources sb with
       | [] => Ok []
       | r :: _ => Err (ErrUnknownPodResourceType (Name r))
       end, w).
Proof.
  split; [|split].
  - intros Hd. unfold Upstream.generateContainerQoSResourceSpecOpts,
      generateContainerQoSResourceSpecOpts, bind.
    by rewrite Upstream_containerQoSLoop_eq.
  - intros Hd. unfold Upstream.generateSandboxQoSResourceSpecOpts,
      NoNet.generateSandboxQoSResourceSpecOpts, bind.
    by rewrite Upstream_sandboxQoSLoop_eq.
  - unfold Upstream.generateSandboxQoSResourceSpecOpts, bind.
    by destruct (PodQosResources sb).
Qed.

Lemma Upstream_is_the_empty_catalog_case_witness :
  Upstream.generateContainerQoSResourceSpecOpts
    (exampleEnv true true false false)
    (exampleContainer [mkQOSResource "rdt" "gold";
                       mkQOSResource "dummy-1" "class-a"] ∅)
    (exampleSandbox [] ∅) emptyWorld
  = generateContainerQoSResourceSpecOpts
      (exampleEnv true true false false)
      (exampleContainer [mkQOSResource "rdt" "gold";
                         mkQOSResource "dummy-1" "class-a"] ∅)
      (exampleSandbox [] ∅) emptyWorld.
Proof.
  apply (proj1 (Upstream_is_the_empty_catalog_case
                  (exampleEnv true true false false)
                  (exampleContainer [mkQOSResource "rdt" "gold";
                                     mkQOSResource "dummy-1" "class-a"] ∅)
                  (exampleSandbox [] ∅) emptyWorld)).
  reflexivity.
Defined.

(** ** The pod-level generators *)

(** X15. [generateSandboxQoSResourceSpecOpts] succeeds, with no spec
    option, exactly on the request lists in which every request has a
    non-empty class and names ["net"] or a placeholder type with a class its
    catalog lists.  The class of a ["net"] request is not looked up in the
    net class catalog here: the result is the same whatever that catalog
    holds. *)
Theorem sandbox_generator_passes_iff {L} (sb : PodSandboxConfig) (w : World) :
  (fst (generateSandboxQoSResourceSpecOpts (LinuxBlockIO:=L) sb w) = Ok []
   ↔ Forall (acceptedBySandboxLoop w) (PodQosResources sb))
  ∧ (∀ specOpts,
       fst (generateSandboxQoSResourceSpecOpts (LinuxBlockIO:=L) sb w)
       = Ok specOpts → specOpts = [])
  ∧ (∀ qos,
       fst (generateSandboxQoSResourceSpecOpts (LinuxBlockIO:=L) sb
              (snd (setCniQoSResource qos w)))
       = fst (generateSandboxQoSResourceSpecOpts (LinuxBlockIO:=L) sb w)).
Proof.
  rewrite !generateSandboxQoSResourceSpecOpts_fst. split; [|split].
  - assert (fst (sandboxQoSLoop (PodQosResources sb) w) = None
            ↔ Forall (acceptedBySandboxLoop w) (PodQosResources sb)) as <-.
    { induction (PodQosResources sb) as [|r rest IH]; [by split|].
      rewrite sandboxQoSLoop_cons, Forall_cons, <-IH.
      unfold acceptedBySandboxLoop.
      destruct (decide (Name r = QoSResourceNet)) as [Hn|Hn].
      - destruct (decide (Class r = "")) as [Hc|Hc];
          [split; [done|]; by intros [[? _] _]|].
        split; [|by intros [_ ?]]. intros Hrest. split; [|done]. split; auto.
      - destruct (dummyPodQoSResources w !! Name r) as [cr|] eqn:Hcr.
        + destruct (decide (Class r ∈ cr)) as [Hin|Hin].
          * destruct (decide (Class r = "")) as [Hc|Hc];
              [split; [done|]; by intros [[? _] _]|].
            split; [|by intros [_ ?]]. intros Hrest. split; [|done].
            split; [done|]. right. by exists cr.
          * split; [done|]. intros [[_ [?|(cr' & ? & ?)]] _]; [done|].
            congruence.
        + split; [done|]. intros [[_ [?|(cr' & ? & ?)]] _]; [done|].
          congruence. }
    by destruct (fst (sandboxQoSLoop _ w)).
  - intros specOpts. destruct (fst (sandboxQoSLoop _ w)); [done|].
    by intros [= <-].
  - intros qos. rewrite generateSandboxQoSResourceSpecOpts_fst.
    by rewrite (sandboxQoSLoop_world _ (snd (setCniQoSResource qos w)) w).
Qed.

(** A config the pod-level generator lets through although
    [generateCniQoSResourceOpts] refuses it. *)
Example net_request_checked_by_the_cni_generator_only :
  fst (generateSandboxQoSResourceSpecOpts (LinuxBlockIO:=string)
         (exampleSandbox [mkQOSResource "net" "missing"] ∅)
         (snd (setCniQoSResource exampleQos init))) = Ok []
  ∧ fst (generateCniQoSResourceOpts
           (exampleSandbox [mkQOSResource "net" "missing"] ∅)
           (snd (setCniQoSResource exampleQos init)))
    = Err (ErrUnknownQuotedClass "net" "missing").
Proof. split; vm_compute; reflexivity. Qed.

(** X16. On a config without a ["net"] request the pod-level generator of
    the file with the CNI resource and the one of the file without it do
    the same: same result, same log. *)
Theorem sandbox_generators_agree_without_net {L} (sb : PodSandboxConfig)
    (w : World) :
  (∀ r, r ∈ PodQosResources sb → Name r ≠ QoSResourceNet) →
  NoNet.generateSandboxQoSResourceSpecOpts (LinuxBlockIO:=L) sb w
  = generateSandboxQoSResourceSpecOpts sb w.
Proof.
  intros Hnet.
  unfold NoNet.generateSandboxQoSResourceSpecOpts,
    generateSandboxQoSResourceSpecOpts, bind.
  assert (NoNet.sandboxQoSLoop (PodQosResources sb) w
          = sandboxQoSLoop (PodQosResources sb) w) as ->; [|done].
  revert w. induction (PodQosResources sb) as [|r rest IH]; intros w; [done|].
  cbn [NoNet.sandboxQoSLoop sandboxQoSLoop]. run.
  destruct (decide (Name r = QoSResourceNet)) as [Hn|_];
    [destruct (Hnet r); [by left|done]|].
  destruct (dummyPodQoSResources w !! Name r) as [cr|]; cbn; [|done].
  destruct (decide (Class r ∈ cr)); cbn; [|done].
  destruct (decide (Class r = "")); [done|].
  apply IH. intros r' Hin. apply Hnet. by right.
Qed.

Lemma sandbox_generators_agree_without_net_witness :
  NoNet.generateSandboxQoSResourceSpecOpts (LinuxBlockIO:=string)
    (exampleSandbox [mkQOSResource "podres-1" "qos-b";
                     mkQOSResource "podres-2" "cls-9"] ∅) init
  = generateSandboxQoSResourceSpecOpts
      (exampleSandbox [mkQOSResource "podres-1" "qos-b";
                       mkQOSResource "podres-2" "cls-9"] ∅) init.
Proof.
  apply (sandbox_generators_agree_without_net
           (exampleSandbox [mkQOSResource "podres-1" "qos-b";
                            mkQOSResource "podres-2" "cls-9"] ∅) init).
  intros r Hin. cbn in Hin.
  apply elem_of_cons in Hin as [->|Hin]; [discriminate|].
  apply list_elem_of_singleton in Hin as ->. discriminate.
Defined.

(** X17. [generateCniQoSResourceOpts] never touches the world, returns at
    most one namespace option, and returns none, without error, for a
    sandbox that has no ["net"] request -- whatever the catalog holds and
    whatever classes the other requests name. *)
Theorem generateCniQoSResourceOpts_reads_only (sb : PodSandboxConfig)
    (w : World) :
  snd (generateCniQoSResourceOpts sb w) = w
  ∧ (∀ nsOpts, fst (generateCniQoSResourceOpts sb w) = Ok nsOpts →
               (length nsOpts ≤ 1)%nat)
  ∧ ((∀ r, r ∈ PodQosResources sb → Name r ≠ QoSResourceNet) →
     fst (generateCniQoSResourceOpts sb w) = Ok []).
Proof.
  unfold generateCniQoSResourceOpts.
  induction (PodQosResources sb) as [|r rest (IH1 & IH2 & IH3)].
  { split; [done|split; [|done]]. intros nsOpts [= <-]. cbn. lia. }
  cbn [cniQoSLoop]. destruct (decide (Name r = QoSResourceNet)) as [Hr|Hr].
  - run. split; [|split].
    + destruct (cniQoSResource w !! Class r) as [caps|]; [|done].
      by destruct (BandWidth caps).
    + intros nsOpts.
      destruct (cniQoSResource w !! Class r) as [caps|]; [|done].
      destruct (BandWidth caps); intros [= <-]; cbn; lia.
    + intros Hall. destruct (Hall r); [by left|done].
  - split; [done|split; [done|]]. intros Hall. apply IH3.
    intros r' Hin. apply Hall. by right.
Qed.

(** ** What the operations leave alone *)

Lemma conservative_ret {A} (a : A) : conservative (ret a).
Proof. intros w. by split. Qed.

Lemma conservative_get : conservative get.
Proof. intros w. by split. Qed.

Lemma conservative_logf e : conservative (logf e).
Proof. intros w. split; [done|]. cbn. by apply prefix_app_r. Qed.

Lemma conservative_bind {A B} (m : M A) (k : A → M B) :
  conservative m → (∀ a, conservative (k a)) → conservative (bind m k).
Proof.
  intros Hm Hk w. unfold bind. destruct (Hm w) as [Hg Hl].
  destruct (m w) as [a w1]. cbn in *. destruct (Hk a w1) as [Hg' Hl'].
  split; [congruence|]. by etrans.
Qed.

Ltac conserve :=
  repeat first
    [ apply conservative_ret
    | apply conservative_logf
    | apply conservative_get
    | apply conservative_bind; [|intros ?]
    | match goal with
      | |- conservative (match ?x with _ => _ end) => destruct x
      end ].

Lemma getContainerRdtClass_conservative {L} (env : Env L) cfg sb :
  conservative (getContainerRdtClass env cfg sb).
Proof. unfold getContainerRdtClass. conserve. Qed.

Lemma getContainerBlockioClass_conservative {L} (env : Env L) cfg sb :
  conservative (getContainerBlockioClass env cfg sb).
Proof. unfold getContainerBlockioClass. conserve. Qed.

Lemma containerQoSLoop_conservative qrs : conservative (containerQoSLoop qrs).
Proof. induction qrs as [|r rest IH]; cbn [containerQoSLoop]; conserve; try assumption. Qed.

Lemma sandboxQoSLoop_conservative qrs : conservative (sandboxQoSLoop qrs).
Proof. induction qrs as [|r rest IH]; cbn [sandboxQoSLoop]; conserve; try assumption. Qed.

Lemma NoNet_sandboxQoSLoop_conservative qrs :
  conservative (NoNet.sandboxQoSLoop qrs).
Proof.
  induction qrs as [|r rest IH]; cbn [NoNet.sandboxQoSLoop]; conserve; try assumption.
Qed.

Lemma cniQoSLoop_conservative qrs nsOpts : conservative (cniQoSLoop qrs nsOpts).
Proof. induction qrs as [|r rest IH]; cbn [cniQoSLoop]; conserve; try assumption. Qed.

Lemma getCniQoSResources_conservative {L} (env : Env L) netplugin :
  conservative (getCniQoSResources env netplugin).
Proof. unfold getCniQoSResources. conserve. Qed.

(** X18. No operation drops or rewrites a log line, and none of the
    generators, resolvers and advertisement functions changes a package
    variable.  [updateCniQoSResources] is the only writer: it changes
    nothing but [cniQoSResource]. *)
Theorem only_the_rebuild_writes {L} (env : Env L) (cfg : ContainerConfig)
    (sb : PodSandboxConfig) (netplugin : option CNI)
    (rdtClasses blockioClasses : list string)
    (entries : list (string * CniQoSClass)) :
  conservative (generateContainerQoSResourceSpecOpts env cfg sb)
  ∧ conservative (generateSandboxQoSResourceSpecOpts (LinuxBlockIO:=L) sb)
  ∧ conservative (NoNet.generateSandboxQoSResourceSpecOpts (LinuxBlockIO:=L) sb)
  ∧ conservative (generateCniQoSResourceOpts sb)
  ∧ conservative (getContainerRdtClass env cfg sb)
  ∧ conservative (getContainerBlockioClass env cfg sb)
  ∧ conservative (GetContainerQoSResourcesInfo rdtClasses blockioClasses)
  ∧ conservative (podQoSResourcesInfo entries)
  ∧ conservative (getCniQoSResources env netplugin)
  ∧ (∀ w,
       dummyContainerQoSResources (snd (updateCniQoSResources env netplugin w))
       = dummyContainerQoSResources w
       ∧ dummyPodQoSResources (snd (updateCniQoSResources env netplugin w))
         = dummyPodQoSResources w
       ∧ dummyContainerQoSResourcesInfo
           (snd (updateCniQoSResources env netplugin w))
         = dummyContainerQoSResourcesInfo w
       ∧ dummyPodQoSResourcesInfo (snd (updateCniQoSResources env netplugin w))
         = dummyPodQoSResourcesInfo w
       ∧ logged w `prefix_of`
           logged (snd (updateCniQoSResources env netplugin w))).
Proof.
  split_and!.
  - unfold generateContainerQoSResourceSpecOpts, handleRdt, handleBlockio.
    pose proof (containerQoSLoop_conservative (ContainerQosResources cfg)).
    pose proof (getContainerRdtClass_conservative env cfg sb).
    pose proof (getContainerBlockioClass_conservative env cfg sb).
    conserve; try assumption.
  - unfold generateSandboxQoSResourceSpecOpts.
    pose proof (sandboxQoSLoop_conservative (PodQosResources sb)).
    conserve; try assumption.
  - unfold NoNet.generateSandboxQoSResourceSpecOpts.
    pose proof (NoNet_sandboxQoSLoop_conservative (PodQosResources sb)).
    conserve; try assumption.
  - apply cniQoSLoop_conservative.
  - apply getContainerRdtClass_conservative.
  - apply getContainerBlockioClass_conservative.
  - unfold GetContainerQoSResourcesInfo. conserve.
  - unfold podQoSResourcesInfo. conserve.
  - apply getCniQoSResources_conservative.
  - intros w. unfold updateCniQoSResources, bind.
    destruct (getCniQoSResources_conservative env netplugin w) as [Hg Hl].
    destruct (getCniQoSResources env netplugin w) as [[qos|err] w1]; cbn in *;
      unfold globals in Hg; repeat split; congruence || done.
Qed.

(** ** What the resolvers log *)

(** X19. [getContainerBlockioClass] logs nothing and leaves the world as it
    is.  [getContainerRdtClass] logs the class found on the config and,
    when its support check refuses the class (RDT disabled or class
    unknown), a second line that says "from annotations" -- also when the
    class came from a structured request. *)
Theorem resolver_log_lines {L} (env : Env L) (cfg : ContainerConfig)
    (sb : PodSandboxConfig) (w : World) (cls : string) :
  requestedClass QoSResourceRdt (ContainerQosResources cfg) = Some cls →
  cls ≠ "" →
  snd (getContainerBlockioClass env cfg sb w) = w
  ∧ logged (snd (getContainerRdtClass env cfg sb w)) =
      logged w
      ++ LogRdtClassFromConfig cls true (MetadataName (Metadata cfg))
         :: (if IsEnabled (rdt env) && ClassExists (rdt env) cls then []
             else [LogRdtClassFromAnnotations cls (MetadataName (Metadata cfg))]).
Proof.
  intros Hreq Hne. split.
  - unfold getContainerBlockioClass.
    destruct (classFromConfig _ _ _ _) as [[] c]; run.
    + destruct (decide (c = "")); [done|].
      by destruct (IsEnabled _), (ClassExists _ _).
    + destruct (ContainerClassFromAnnotations _ _ _ _) as [c' [err|]]; [done|].
      destruct (decide (c' = "")); [done|].
      by destruct (IsEnabled _), (ClassExists _ _).
  - unfold getContainerRdtClass.
    rewrite classFromConfig_requested, Hreq. run.
    destruct (decide (cls = "")); [done|].
    destruct (IsEnabled (rdt env)), (ClassExists (rdt env) cls); cbn;
      by rewrite <-?app_assoc.
Qed.

Lemma resolver_log_lines_witness :
  logged (snd (getContainerRdtClass (exampleEnv true true false false)
                 (exampleContainer [mkQOSResource "rdt" "bronze"] ∅)
                 (exampleSandbox [] ∅) init))
  = logged init
    ++ LogRdtClassFromConfig "bronze" true "app"
       :: (if IsEnabled (rdt (exampleEnv true true false false))
              && ClassExists (rdt (exampleEnv true true false false)) "bronze"
           then [] else [LogRdtClassFromAnnotations "bronze" "app"]).
Proof.
  apply (resolver_log_lines (exampleEnv true true false false)
           (exampleContainer [mkQOSResource "rdt" "bronze"] ∅)
           (exampleSandbox [] ∅) init "bronze").
  - vm_compute. reflexivity.
  - discriminate.
Defined.
